(** * CD4067 16-channel analog multiplexer driver (mux_cd4067.h / mux_cd4067.c)

    Shallow embedding of [Firmware/App/sensors/sensor_array.c] and the
    properties of its channel-select / settle / read sequencing.

    Conventions of the embedding:
    - C unsigned integers ([uint8_t], [uint16_t], [uint32_t]) are [Z], with
      the wrap-around written out where the code computes;
    - a pointer to a peripheral ([GPIO_TypeDef *], [ADC_HandleTypeDef *]) is
      its address, a [Z];
    - a pointer to a struct that the driver tests against [NULL] is an
      [option]: [None] is [NULL], [Some x] points to storage holding [x];
    - the sample buffer [uint16_t *data] is an address into a memory of
      16-bit cells, [NULL] being address 0;
    - the hardware is an explicit [World] threaded through every call. *)

From Stdlib Require Import ZArith List Bool Lia.
From stdpp Require Import base gmap list.
Import ListNotations.
Local Open Scope Z_scope.

(** ** Types of the vendor HAL used by the driver *)

Inductive HAL_StatusTypeDef : Type :=
| HAL_OK
| HAL_ERROR
| HAL_BUSY
| HAL_TIMEOUT.

Inductive GPIO_PinState : Type :=
| GPIO_PIN_RESET
| GPIO_PIN_SET.

#[global] Instance GPIO_PinState_eq_dec : EqDecision GPIO_PinState.
Proof. solve_decision. Defined.

#[global] Instance HAL_StatusTypeDef_eq_dec : EqDecision HAL_StatusTypeDef.
Proof. solve_decision. Defined.

(** A digital output line is a (port, pin) pair. *)
Abbreviation Line := (Z * Z)%type.

(** ** Configuration of the multiplexer (header part of the source) *)

Definition MUX_CHANNELS : Z := 16.
Definition MUX_ACTIVE_CHANNELS : Z := 14.

Record MUX_Config_t : Type := mkConfig {
  s0_port : Z; s0_pin : Z;
  s1_port : Z; s1_pin : Z;
  s2_port : Z; s2_pin : Z;
  s3_port : Z; s3_pin : Z;
  en_port : Z; en_pin : Z;
  hadc : Z;
  adc_channel : Z
}.

Record MUX_Handle_t : Type := mkHandle {
  config : MUX_Config_t;
  current_channel : Z;
  is_enabled : bool;
  settling_time_us : Z
}.

Definition s0_line (c : MUX_Config_t) : Line := (s0_port c, s0_pin c).
Definition s1_line (c : MUX_Config_t) : Line := (s1_port c, s1_pin c).
Definition s2_line (c : MUX_Config_t) : Line := (s2_port c, s2_pin c).
Definition s3_line (c : MUX_Config_t) : Line := (s3_port c, s3_pin c).
Definition en_line (c : MUX_Config_t) : Line := (en_port c, en_pin c).

Definition select_lines (c : MUX_Config_t) : list Line :=
  [s0_line c; s1_line c; s2_line c; s3_line c].

(** ** The hardware seen through the HAL *)

(** Every call the driver makes into the platform layer, in program order. *)
Inductive HAL_Event : Type :=
| EvGpioWrite (port pin : Z) (state : GPIO_PinState)
| EvNop
| EvAdcStart (adc : Z)
| EvAdcPoll (adc : Z) (timeout : Z)
| EvAdcGetValue (adc : Z)
| EvAdcStop (adc : Z).

#[global] Instance HAL_Event_eq_dec : EqDecision HAL_Event.
Proof. solve_decision. Defined.

(** [gpio] is the level last written to each output line; [trace] the calls
    made so far (oldest first); [adc_backend adc lines n] the value the ADC
    peripheral [adc] converts on its [n]-th conversion when the output lines
    stand at [lines]; [adc_dr] the ADC data register; [ram] the memory of
    16-bit cells in which sample buffers live; [SystemCoreClock] the CMSIS
    global of that name. *)
Record World : Type := mkWorld {
  gpio : gmap Line GPIO_PinState;
  trace : list HAL_Event;
  adc_conversions : nat;
  adc_dr : Z;
  ram : gmap Z Z;
  SystemCoreClock : Z;
  adc_backend : Z -> gmap Line GPIO_PinState -> nat -> Z
}.

Definition log (e : HAL_Event) (w : World) : World :=
  mkWorld (gpio w) (trace w ++ [e]) (adc_conversions w) (adc_dr w) (ram w)
          (SystemCoreClock w) (adc_backend w).

Definition HAL_MAX_DELAY : Z := 4294967295.
Definition NULL : Z := 0.

(** Modelled from the spec: [HAL_GPIO_WritePin] of the vendor HAL is not part
    of the source file.  The spec gives its contract: a synchronous "set pin
    level" on the line identified by a (port, pin) pair, with immediate
    effect on the physical line. *)
Definition HAL_GPIO_WritePin (port pin : Z) (state : GPIO_PinState) (w : World) : World :=
  log (EvGpioWrite port pin state)
      (mkWorld (<[(port, pin) := state]> (gpio w)) (trace w) (adc_conversions w)
               (adc_dr w) (ram w) (SystemCoreClock w) (adc_backend w)).

(** Modelled from the spec: the CMSIS intrinsic [__NOP] does nothing but take
    one instruction slot. *)
Definition __NOP (w : World) : World := log EvNop w.

(** Modelled from the spec: the ADC collaborator is the abstract sequence
    start conversion, poll until ready, read converted value, stop.  The
    backend always completes a started conversion (a stalled ADC, which would
    block the poll forever, is outside this model); the status codes the HAL
    returns are ignored by the driver and not modelled. *)
Definition HAL_ADC_Start (adc : Z) (w : World) : World :=
  log (EvAdcStart adc)
      (mkWorld (gpio w) (trace w) (S (adc_conversions w))
               (adc_backend w adc (gpio w) (adc_conversions w))
               (ram w) (SystemCoreClock w) (adc_backend w)).

Definition HAL_ADC_PollForConversion (adc : Z) (timeout : Z) (w : World) : World :=
  log (EvAdcPoll adc timeout) w.

(** returns a [uint32_t] *)
Definition HAL_ADC_GetValue (adc : Z) (w : World) : Z * World :=
  (adc_dr w mod 2 ^ 32, log (EvAdcGetValue adc) w).

Definition HAL_ADC_Stop (adc : Z) (w : World) : World :=
  log (EvAdcStop adc) w.

Definition with_ram (m : gmap Z Z) (w : World) : World :=
  mkWorld (gpio w) (trace w) (adc_conversions w) (adc_dr w) m
          (SystemCoreClock w) (adc_backend w).

(** [data[i] = v] on the 16-bit cell memory. *)
Definition poke (addr : Z) (v : Z) (w : World) : World :=
  with_ram (<[addr := v]> (ram w)) w.

(** ** The driver *)

(** [uint32_t cycles = (SystemCoreClock / 1000000) * us / 3;] in 32-bit
    unsigned arithmetic. *)
Definition delay_cycles (clock us : Z) : Z :=
  (((clock / 1000000) * us) mod 2 ^ 32) / 3.

(** [while(cycles--) { __NOP(); }]: one [__NOP] per unit of [cycles]. *)
Fixpoint nop_loop (cycles : nat) (w : World) : World :=
  match cycles with
  | O => w
  | S k => nop_loop k (__NOP w)
  end.

Definition delay_us (us : Z) (w : World) : World :=
  nop_loop (Z.to_nat (delay_cycles (SystemCoreClock w) us)) w.

Definition MUX_Init (hmux : option MUX_Handle_t) (cfg : option MUX_Config_t) (w : World)
  : HAL_StatusTypeDef * option MUX_Handle_t * World :=
  match hmux, cfg with
  | Some _, Some c =>
      let h := mkHandle c 0 false 10 in
      let w := HAL_GPIO_WritePin (s0_port (config h)) (s0_pin (config h)) GPIO_PIN_RESET w in
      let w := HAL_GPIO_WritePin (s1_port (config h)) (s1_pin (config h)) GPIO_PIN_RESET w in
      let w := HAL_GPIO_WritePin (s2_port (config h)) (s2_pin (config h)) GPIO_PIN_RESET w in
      let w := HAL_GPIO_WritePin (s3_port (config h)) (s3_pin (config h)) GPIO_PIN_RESET w in
      let w := HAL_GPIO_WritePin (en_port (config h)) (en_pin (config h)) GPIO_PIN_SET w in
      (HAL_OK, Some h, w)
  | _, _ => (HAL_ERROR, hmux, w)
  end.

Definition MUX_SetSettlingTime (hmux : MUX_Handle_t) (time_us : Z) : MUX_Handle_t :=
  mkHandle (config hmux) (current_channel hmux) (is_enabled hmux) time_us.

Definition MUX_Enable (hmux : MUX_Handle_t) (w : World) : MUX_Handle_t * World :=
  let w := HAL_GPIO_WritePin (en_port (config hmux)) (en_pin (config hmux)) GPIO_PIN_RESET w in
  (mkHandle (config hmux) (current_channel hmux) true (settling_time_us hmux), w).

Definition MUX_Disable (hmux : MUX_Handle_t) (w : World) : MUX_Handle_t * World :=
  let w := HAL_GPIO_WritePin (en_port (config hmux)) (en_pin (config hmux)) GPIO_PIN_SET w in
  (mkHandle (config hmux) (current_channel hmux) false (settling_time_us hmux), w).

(** [(channel & mask) ? GPIO_PIN_SET : GPIO_PIN_RESET] *)
Definition pin_of_mask (channel mask : Z) : GPIO_PinState :=
  if Z.land channel mask =? 0 then GPIO_PIN_RESET else GPIO_PIN_SET.

Definition MUX_SelectChannel (hmux : MUX_Handle_t) (channel : Z) (w : World)
  : MUX_Handle_t * World :=
  if MUX_CHANNELS <=? channel then (hmux, w)
  else
    let w := HAL_GPIO_WritePin (s0_port (config hmux)) (s0_pin (config hmux))
                               (pin_of_mask channel 1) w in
    let w := HAL_GPIO_WritePin (s1_port (config hmux)) (s1_pin (config hmux))
                               (pin_of_mask channel 2) w in
    let w := HAL_GPIO_WritePin (s2_port (config hmux)) (s2_pin (config hmux))
                               (pin_of_mask channel 4) w in
    let w := HAL_GPIO_WritePin (s3_port (config hmux)) (s3_pin (config hmux))
                               (pin_of_mask channel 8) w in
    let h := mkHandle (config hmux) channel (is_enabled hmux) (settling_time_us hmux) in
    (h, delay_us (settling_time_us h) w).

Definition MUX_ReadChannel (hmux : MUX_Handle_t) (channel : Z) (w : World)
  : Z * MUX_Handle_t * World :=
  let '(h, w) := if negb (is_enabled hmux) then MUX_Enable hmux w else (hmux, w) in
  let '(h, w) := MUX_SelectChannel h channel w in
  let w := HAL_ADC_Start (hadc (config h)) w in
  let w := HAL_ADC_PollForConversion (hadc (config h)) HAL_MAX_DELAY w in
  let '(raw, w) := HAL_ADC_GetValue (hadc (config h)) w in
  let value := raw mod 2 ^ 16 in
  let w := HAL_ADC_Stop (hadc (config h)) w in
  (value, h, w).

(** [for(uint8_t i = 0; i < num_channels; i++) data[i] = MUX_ReadChannel(hmux, i);]
    by recursion on the number of iterations still to run: [i] counts up from
    0 by one, so the test [i < num_channels] holds exactly [num_channels]
    times (the guard of [MUX_ReadAllChannels] keeps [num_channels <= 16], far
    from the wrap of the 8-bit counter, which is written out all the same). *)
Fixpoint read_loop (remaining : nat) (i : Z) (data : Z) (hmux : MUX_Handle_t) (w : World)
  : MUX_Handle_t * World :=
  match remaining with
  | O => (hmux, w)
  | S k =>
      let '(value, h, w) := MUX_ReadChannel hmux i w in
      let w := poke (data + i) value w in
      read_loop k ((i + 1) mod 2 ^ 8) data h w
  end.

Definition MUX_ReadAllChannels (hmux : MUX_Handle_t) (data : Z) (num_channels : Z) (w : World)
  : HAL_StatusTypeDef * MUX_Handle_t * World :=
  if (data =? NULL) || (MUX_CHANNELS <? num_channels) then (HAL_ERROR, hmux, w)
  else
    let '(h, w) := if negb (is_enabled hmux) then MUX_Enable hmux w else (hmux, w) in
    let '(h, w) := read_loop (Z.to_nat num_channels) 0 data h w in
    (HAL_OK, h, w).

Definition MUX_GetCurrentChannel (hmux : MUX_Handle_t) : Z :=
  current_channel hmux.

(** ** Driver calls as a transition system *)

(** One call of the public API, with the arguments the caller passes. *)
Inductive MUX_Op : Type :=
| OpInit (cfg : option MUX_Config_t)
| OpSetSettlingTime (time_us : Z)
| OpEnable
| OpDisable
| OpSelectChannel (channel : Z)
| OpReadChannel (channel : Z)
| OpReadAllChannels (data : Z) (num_channels : Z)
| OpGetCurrentChannel.

Definition run_op (op : MUX_Op) (s : MUX_Handle_t * World) : MUX_Handle_t * World :=
  let '(h, w) := s in
  match op with
  | OpInit cfg =>
      match MUX_Init (Some h) cfg w with
      | (_, Some h', w') => (h', w')
      | (_, None, w') => (h, w')
      end
  | OpSetSettlingTime t => (MUX_SetSettlingTime h t, w)
  | OpEnable => MUX_Enable h w
  | OpDisable => MUX_Disable h w
  | OpSelectChannel ch => MUX_SelectChannel h ch w
  | OpReadChannel ch => let '(_, h', w') := MUX_ReadChannel h ch w in (h', w')
  | OpReadAllChannels data n => let '(_, h', w') := MUX_ReadAllChannels h data n w in (h', w')
  | OpGetCurrentChannel => (h, w)
  end.

(** The arguments fit their C parameter types ([uint8_t] channel and count,
    [uint16_t] time), and a configuration handed to [MUX_Init] satisfies [P]. *)
Definition op_ok (P : MUX_Config_t -> Prop) (op : MUX_Op) : Prop :=
  match op with
  | OpInit (Some c) => P c
  | OpInit None => True
  | OpSetSettlingTime t => 0 <= t < 2 ^ 16
  | OpSelectChannel ch | OpReadChannel ch => 0 <= ch < 2 ^ 8
  | OpReadAllChannels _ n => 0 <= n < 2 ^ 8
  | OpEnable | OpDisable | OpGetCurrentChannel => True
  end.

(** States reachable from a successful [MUX_Init] by driver calls. *)
Inductive reachable (P : MUX_Config_t -> Prop) : MUX_Handle_t * World -> Prop :=
| reachable_init h0 c w0 h w :
    P c -> MUX_Init (Some h0) (Some c) w0 = (HAL_OK, Some h, w) -> reachable P (h, w)
| reachable_step op s :
    reachable P s -> op_ok P op -> reachable P (run_op op s).

Definition any_config : MUX_Config_t -> Prop := fun _ => True.

(** The enable line is wired to a pin of its own. *)
Definition en_separate (c : MUX_Config_t) : Prop := en_line c ∉ select_lines c.

(** Level to which line [l] was last driven according to a trace. *)
Fixpoint last_driven (l : Line) (t : list HAL_Event) : option GPIO_PinState :=
  match t with
  | [] => None
  | e :: rest =>
      match last_driven l rest with
      | Some st => Some st
      | None =>
          match e with
          | EvGpioWrite port pin st => if decide ((port, pin) = l) then Some st else None
          | _ => None
          end
      end
  end.

(** Active-low enable: the level of the enable line that goes with the flag. *)
Definition en_level (enabled : bool) : GPIO_PinState :=
  if enabled then GPIO_PIN_RESET else GPIO_PIN_SET.

(** The four GPIO writes of a channel selection, by bit of the channel. *)
Definition level_of_bit (channel : Z) (bit : Z) : GPIO_PinState :=
  if Z.testbit channel bit then GPIO_PIN_SET else GPIO_PIN_RESET.

Definition select_writes (c : MUX_Config_t) (channel : Z) : list HAL_Event :=
  [EvGpioWrite (s0_port c) (s0_pin c) (level_of_bit channel 0);
   EvGpioWrite (s1_port c) (s1_pin c) (level_of_bit channel 1);
   EvGpioWrite (s2_port c) (s2_pin c) (level_of_bit channel 2);
   EvGpioWrite (s3_port c) (s3_pin c) (level_of_bit channel 3)].

Definition adc_events (adc : Z) : list HAL_Event :=
  [EvAdcStart adc; EvAdcPoll adc HAL_MAX_DELAY; EvAdcGetValue adc; EvAdcStop adc].

(** The sweep as the spec words it: the single-channel read, once per channel
    of the list, samples collected in order. *)
Fixpoint read_each (channels : list Z) (hmux : MUX_Handle_t) (w : World)
  : list Z * MUX_Handle_t * World :=
  match channels with
  | [] => ([], hmux, w)
  | ch :: rest =>
      let '(v, h, w) := MUX_ReadChannel hmux ch w in
      let '(vs, h, w) := read_each rest h w in
      (v :: vs, h, w)
  end.

(** A board used to evaluate the driver on concrete inputs: five separate
    lines on port 1, an ADC that reports 100 + the channel code on the select
    lines. *)
Definition demo_config : MUX_Config_t :=
  mkConfig 1 1 1 2 1 4 1 8 1 16 7 3.

Definition demo_code (lines : gmap Line GPIO_PinState) : Z :=
  (if decide (lines !! (1, 1) = Some GPIO_PIN_SET) then 1 else 0) +
  (if decide (lines !! (1, 2) = Some GPIO_PIN_SET) then 2 else 0) +
  (if decide (lines !! (1, 4) = Some GPIO_PIN_SET) then 4 else 0) +
  (if decide (lines !! (1, 8) = Some GPIO_PIN_SET) then 8 else 0).

Definition demo_world : World :=
  mkWorld ∅ [] 0 0 ∅ 8000000 (fun _ lines _ => 100 + demo_code lines).

Definition junk_handle : MUX_Handle_t :=
  mkHandle (mkConfig 9 9 9 9 9 9 9 9 9 9 9 9) 200 true 12345.

(** Select line S0 and the enable line wired to the same pin. *)
Definition shared_pin_config : MUX_Config_t :=
  mkConfig 1 1 1 2 1 4 1 8 1 1 7 3.

(** The code the CD4067 decodes from four select levels. *)
Definition Z_of_level (st : GPIO_PinState) : Z :=
  match st with GPIO_PIN_SET => 1 | GPIO_PIN_RESET => 0 end.

Definition select_code (l0 l1 l2 l3 : GPIO_PinState) : Z :=
  Z_of_level l0 + 2 * Z_of_level l1 + 4 * Z_of_level l2 + 8 * Z_of_level l3.

(** What a channel selection adds to the trace. *)
Definition select_events (h : MUX_Handle_t) (channel : Z) (w : World) : list HAL_Event :=
  if MUX_CHANNELS <=? channel then []
  else select_writes (config h) channel ++
       repeat EvNop (Z.to_nat (delay_cycles (SystemCoreClock w) (settling_time_us h))).

Definition enable_events (h : MUX_Handle_t) : list HAL_Event :=
  if is_enabled h then []
  else [EvGpioWrite (en_port (config h)) (en_pin (config h)) GPIO_PIN_RESET].

(** Samples stored at consecutive cells from [addr] on. *)
Fixpoint store_samples (addr : Z) (vs : list Z) (m : gmap Z Z) : gmap Z Z :=
  match vs with
  | [] => m
  | v :: rest => store_samples (addr + 1) rest (<[addr := v]> m)
  end.

(** Line levels after the optional enable and after a channel selection. *)
Definition enable_gpio (h : MUX_Handle_t) (g : gmap Line GPIO_PinState)
  : gmap Line GPIO_PinState :=
  if is_enabled h then g else <[en_line (config h) := GPIO_PIN_RESET]> g.

Definition select_gpio (c : MUX_Config_t) (channel : Z) (g : gmap Line GPIO_PinState)
  : gmap Line GPIO_PinState :=
  if MUX_CHANNELS <=? channel then g
  else <[s3_line c := level_of_bit channel 3]>
         (<[s2_line c := level_of_bit channel 2]>
           (<[s1_line c := level_of_bit channel 1]>
             (<[s0_line c := level_of_bit channel 0]> g))).

(** The 16-bit sample the driver returns for the next conversion of [adc]
    with the lines at [g]. *)
Definition sample_at (w : World) (adc : Z) (g : gmap Line GPIO_PinState) : Z :=
  (adc_backend w adc g (adc_conversions w) mod 2 ^ 32) mod 2 ^ 16.

(** [is_enabled] agrees with the enable line: with the level the line holds,
    and with the level it was last driven to. *)
Definition en_mirrors (s : MUX_Handle_t * World) : Prop :=
  gpio s.2 !! en_line (config s.1) = Some (en_level (is_enabled s.1)) /\
  last_driven (en_line (config s.1)) (trace s.2) = Some (en_level (is_enabled s.1)).

(** The invariant carried along a run: the enable line has a pin of its own,
    and the flag agrees with it. *)
Definition mirror_inv (h : MUX_Handle_t) (w : World) : Prop :=
  en_separate (config h) /\ en_mirrors (h, w).

(** The state a board is in after a successful [MUX_Init] with [c]. *)
Definition boot (c : MUX_Config_t) (w : World) : MUX_Handle_t * World :=
  match MUX_Init (Some junk_handle) (Some c) w with
  | (_, Some h, w') => (h, w')
  | (_, None, w') => (junk_handle, w')
  end.

(** The demo board after initialisation, and after a run that disables the
    multiplexer, shortens the settle time and reads channel 3. *)
Definition demo_boot : MUX_Handle_t * World := boot demo_config demo_world.

Definition demo_run : MUX_Handle_t * World :=
  run_op (OpReadChannel 3)
    (run_op (OpSetSettlingTime 2) (run_op OpDisable demo_boot)).

(** Initialise with S0 and the enable line on one pin, then select channel 0. *)
Definition shared_pin_state : MUX_Handle_t * World :=
  run_op (OpSelectChannel 0) (boot shared_pin_config demo_world).

(** The five control lines are five different pins. *)
Definition lines_distinct (c : MUX_Config_t) : Prop :=
  NoDup (select_lines c ++ [en_line c]).

(** The select lines of [c] stand, in [g], at the bits of [channel]. *)
Definition encodes (c : MUX_Config_t) (channel : Z) (g : gmap Line GPIO_PinState) : Prop :=
  g !! s0_line c = Some (level_of_bit channel 0) /\
  g !! s1_line c = Some (level_of_bit channel 1) /\
  g !! s2_line c = Some (level_of_bit channel 2) /\
  g !! s3_line c = Some (level_of_bit channel 3).

(** The select lines carry the code of [current_channel]. *)
Definition lines_encode (s : MUX_Handle_t * World) : Prop :=
  encodes (config s.1) (current_channel s.1) (gpio s.2).

Definition encode_inv (h : MUX_Handle_t) (w : World) : Prop :=
  lines_distinct (config h) /\ lines_encode (h, w).

(** What a sweep over [channels] adds to the trace when every selection is
    followed by [nops] settle iterations: per channel, the four select
    writes, the settle loop, one ADC cycle. *)
Definition sweep_events (c : MUX_Config_t) (nops : nat) (channels : list Z)
  : list HAL_Event :=
  flat_map (fun ch => select_writes c ch ++ repeat EvNop nops ++ adc_events (hadc c))
           channels.

(** The state in which both read calls start their work: the multiplexer
    enabled if it was not. *)
Definition enabled_start (h : MUX_Handle_t) (w : World) : MUX_Handle_t * World :=
  if negb (is_enabled h) then MUX_Enable h w else (h, w).

(** The sample a conversion number [k] yields with the lines at [g]. *)
Definition sample_number (w : World) (adc : Z) (g : gmap Line GPIO_PinState) (k : nat) : Z :=
  (adc_backend w adc g k mod 2 ^ 32) mod 2 ^ 16.

(** Select line S1 and the enable line wired to the same pin. *)
Definition shared_s1_config : MUX_Config_t :=
  mkConfig 1 1 1 2 1 4 1 8 1 2 7 3.

(** Initialise with S1 and the enable line on one pin, then select channel 2. *)
Definition shared_s1_state : MUX_Handle_t * World :=
  run_op (OpSelectChannel 2) (boot shared_s1_config demo_world).

(** The demo board with a core clock below 1 MHz. *)
Definition slow_world : World :=
  mkWorld ∅ [] 0 0 ∅ 500000 (fun _ lines _ => 100 + demo_code lines).

(** Which calls are reads, and which one writes the sample memory. *)
Definition is_read (op : MUX_Op) : bool :=
  match op with
  | OpReadChannel _ | OpReadAllChannels _ _ => true
  | _ => false
  end.

Definition is_sweep (op : MUX_Op) : bool :=
  match op with
  | OpReadAllChannels _ _ => true
  | _ => false
  end.

Definition is_init (op : MUX_Op) : bool :=
  match op with
  | OpInit _ => true
  | _ => false
  end.

Definition sets_time (op : MUX_Op) : bool :=
  match op with
  | OpInit _ | OpSetSettlingTime _ => true
  | _ => false
  end.

(** * Properties *)

(** ** The platform layer *)

Section Platform.

Lemma with_ram_id w : with_ram (ram w) w = w.
Proof. by destruct w. Qed.

Lemma nop_loop_eq k w :
  nop_loop k w =
  mkWorld (gpio w) (trace w ++ repeat EvNop k) (adc_conversions w) (adc_dr w)
          (ram w) (SystemCoreClock w) (adc_backend w).
Proof.
  revert w. induction k as [|k IH]; intros w; simpl.
  - rewrite app_nil_r. by destruct w.
  - rewrite IH. simpl. by rewrite <- app_assoc.
Qed.

Lemma delay_us_eq us w :
  delay_us us w =
  mkWorld (gpio w)
          (trace w ++ repeat EvNop (Z.to_nat (delay_cycles (SystemCoreClock w) us)))
          (adc_conversions w) (adc_dr w) (ram w) (SystemCoreClock w) (adc_backend w).
Proof. unfold delay_us. apply nop_loop_eq. Qed.

Lemma delay_cycles_zero clock : delay_cycles clock 0 = 0.
Proof. unfold delay_cycles. by rewrite Z.mul_0_r. Qed.

Lemma delay_us_zero w : delay_us 0 w = w.
Proof. unfold delay_us. by rewrite delay_cycles_zero. Qed.

(** [channel & (1 << i)] is non-zero exactly when bit [i] of [channel] is set. *)
Lemma pin_of_mask_bit channel i :
  0 <= i -> pin_of_mask channel (2 ^ i) = level_of_bit channel i.
Proof.
  intros Hi. unfold pin_of_mask, level_of_bit.
  destruct (Z.testbit channel i) eqn:Hb.
  - destruct (Z.eqb_spec (Z.land channel (2 ^ i)) 0) as [E|]; [|done].
    apply (f_equal (fun x => Z.testbit x i)) in E.
    rewrite Z.land_spec, Hb, Z.pow2_bits_true, Z.bits_0 in E; [done|lia].
  - destruct (Z.eqb_spec (Z.land channel (2 ^ i)) 0) as [|N]; [done|].
    exfalso. apply N. apply Z.bits_inj'. intros n Hn.
    rewrite Z.land_spec, Z.bits_0, Z.pow2_bits_eqb by lia.
    destruct (Z.eqb_spec i n) as [->|]; [by rewrite Hb | by rewrite andb_false_r].
Qed.

Lemma pin_of_mask_1 channel : pin_of_mask channel 1 = level_of_bit channel 0.
Proof. exact (pin_of_mask_bit channel 0 ltac:(lia)). Qed.

Lemma pin_of_mask_2 channel : pin_of_mask channel 2 = level_of_bit channel 1.
Proof. exact (pin_of_mask_bit channel 1 ltac:(lia)). Qed.

Lemma pin_of_mask_4 channel : pin_of_mask channel 4 = level_of_bit channel 2.
Proof. exact (pin_of_mask_bit channel 2 ltac:(lia)). Qed.

Lemma pin_of_mask_8 channel : pin_of_mask channel 8 = level_of_bit channel 3.
Proof. exact (pin_of_mask_bit channel 3 ltac:(lia)). Qed.

Lemma small_channel_cases channel :
  0 <= channel < 16 ->
  channel ∈ [0; 1; 2; 3; 4; 5; 6; 7; 8; 9; 10; 11; 12; 13; 14; 15].
Proof.
  intros H. rewrite !elem_of_cons. lia.
Qed.

Lemma select_code_bits channel :
  0 <= channel < 16 ->
  select_code (level_of_bit channel 0) (level_of_bit channel 1)
              (level_of_bit channel 2) (level_of_bit channel 3) = channel.
Proof.
  intros H. apply small_channel_cases in H.
  repeat (apply elem_of_cons in H as [-> | H]; [reflexivity|]).
  by apply elem_of_nil in H.
Qed.

End Platform.

(** ** Channel selection *)

Section Select.

Lemma MUX_SelectChannel_skip h channel w :
  MUX_CHANNELS <= channel -> MUX_SelectChannel h channel w = (h, w).
Proof.
  intros H. unfold MUX_SelectChannel.
  by destruct (Z.leb_spec MUX_CHANNELS channel); [|lia].
Qed.

Lemma MUX_SelectChannel_eq h channel w :
  channel < MUX_CHANNELS ->
  MUX_SelectChannel h channel w =
  (mkHandle (config h) channel (is_enabled h) (settling_time_us h),
   mkWorld (<[s3_line (config h) := level_of_bit channel 3]>
             (<[s2_line (config h) := level_of_bit channel 2]>
               (<[s1_line (config h) := level_of_bit channel 1]>
                 (<[s0_line (config h) := level_of_bit channel 0]> (gpio w)))))
           (trace w ++ select_events h channel w)
           (adc_conversions w) (adc_dr w) (ram w) (SystemCoreClock w) (adc_backend w)).
Proof.
  intros H. unfold MUX_SelectChannel, select_events.
  destruct (Z.leb_spec MUX_CHANNELS channel); [lia|].
  rewrite delay_us_eq, pin_of_mask_1, pin_of_mask_2, pin_of_mask_4, pin_of_mask_8.
  unfold select_writes, s0_line, s1_line, s2_line, s3_line. simpl.
  by rewrite <- !app_assoc.
Qed.

End Select.

(** ** Enable, disable and the single-channel read *)

Section Read.

Lemma MUX_SelectChannel_gen h channel w :
  MUX_SelectChannel h channel w =
  (mkHandle (config h) (if MUX_CHANNELS <=? channel then current_channel h else channel)
            (is_enabled h) (settling_time_us h),
   mkWorld (select_gpio (config h) channel (gpio w))
           (trace w ++ select_events h channel w)
           (adc_conversions w) (adc_dr w) (ram w) (SystemCoreClock w) (adc_backend w)).
Proof.
  unfold select_gpio.
  destruct (Z.leb_spec MUX_CHANNELS channel) as [Hge|Hlt].
  - rewrite MUX_SelectChannel_skip by done. unfold select_events.
    destruct (Z.leb_spec MUX_CHANNELS channel); [|lia].
    rewrite app_nil_r. by destruct h, w.
  - by rewrite MUX_SelectChannel_eq.
Qed.

Lemma MUX_ReadChannel_eq h channel w :
  MUX_ReadChannel h channel w =
  (sample_at w (hadc (config h)) (select_gpio (config h) channel (enable_gpio h (gpio w))),
   mkHandle (config h) (if MUX_CHANNELS <=? channel then current_channel h else channel)
            true (settling_time_us h),
   mkWorld (select_gpio (config h) channel (enable_gpio h (gpio w)))
           (trace w ++ enable_events h ++ select_events h channel w ++
            adc_events (hadc (config h)))
           (S (adc_conversions w))
           (adc_backend w (hadc (config h))
                        (select_gpio (config h) channel (enable_gpio h (gpio w)))
                        (adc_conversions w))
           (ram w) (SystemCoreClock w) (adc_backend w)).
Proof.
  unfold MUX_ReadChannel, enable_gpio, enable_events, sample_at.
  destruct (is_enabled h) eqn:He; simpl negb; cbv iota.
  - rewrite MUX_SelectChannel_gen. simpl. rewrite He.
    unfold HAL_ADC_Stop, HAL_ADC_PollForConversion, HAL_ADC_Start, log, adc_events.
    simpl. by rewrite <- !app_assoc.
  - unfold MUX_Enable. rewrite MUX_SelectChannel_gen. simpl.
    unfold HAL_ADC_Stop, HAL_ADC_PollForConversion, HAL_ADC_Start, HAL_GPIO_WritePin,
      log, adc_events, select_events.
    simpl. by rewrite <- !app_assoc.
Qed.

End Read.

(** ** Which line a call drives *)

Section Lines.

Lemma last_driven_app l t1 t2 :
  last_driven l (t1 ++ t2) =
  match last_driven l t2 with
  | Some st => Some st
  | None => last_driven l t1
  end.
Proof.
  induction t1 as [|e t1 IH]; simpl.
  - by destruct (last_driven l t2).
  - rewrite IH. by destruct (last_driven l t2).
Qed.

Lemma last_driven_nops l k : last_driven l (repeat EvNop k) = None.
Proof. induction k as [|k IH]; simpl; [done|]. by rewrite IH. Qed.

Lemma last_driven_adc l adc : last_driven l (adc_events adc) = None.
Proof. done. Qed.

Lemma not_select_line l c :
  l ∉ select_lines c ->
  s0_line c <> l /\ s1_line c <> l /\ s2_line c <> l /\ s3_line c <> l.
Proof.
  unfold select_lines. rewrite !not_elem_of_cons.
  intros (? & ? & ? & ? & _). repeat split; congruence.
Qed.

Lemma last_driven_select_writes l c channel :
  l ∉ select_lines c -> last_driven l (select_writes c channel) = None.
Proof.
  intros (H0 & H1 & H2 & H3)%not_select_line.
  unfold select_writes. simpl.
  unfold s0_line, s1_line, s2_line, s3_line in *.
  by rewrite !decide_False.
Qed.

Lemma last_driven_select_events l h channel w :
  l ∉ select_lines (config h) -> last_driven l (select_events h channel w) = None.
Proof.
  intros Hl. unfold select_events. destruct (MUX_CHANNELS <=? channel); [done|].
  by rewrite last_driven_app, last_driven_nops, last_driven_select_writes.
Qed.

Lemma select_gpio_other l c channel g :
  l ∉ select_lines c -> select_gpio c channel g !! l = g !! l.
Proof.
  intros (H0 & H1 & H2 & H3)%not_select_line.
  unfold select_gpio. destruct (MUX_CHANNELS <=? channel); [done|].
  by rewrite !lookup_insert_ne.
Qed.

(** With the enable line on a pin of its own, a single-channel read keeps
    the flag and the line in agreement. *)
Lemma MUX_ReadChannel_mirrors h channel w :
  en_separate (config h) -> en_mirrors (h, w) ->
  en_separate (config (MUX_ReadChannel h channel w).1.2) /\
  en_mirrors ((MUX_ReadChannel h channel w).1.2, (MUX_ReadChannel h channel w).2).
Proof.
  intros Hsep [Hg Ht]. rewrite MUX_ReadChannel_eq.
  unfold en_mirrors in *. simpl in *.
  split; [done|]. split.
  - rewrite select_gpio_other by done. unfold enable_gpio.
    destruct (is_enabled h); [done|]. apply lookup_insert_eq.
  - rewrite !last_driven_app, last_driven_adc, last_driven_select_events by done.
    unfold enable_events. destruct (is_enabled h); [done|].
    simpl. unfold en_line. by rewrite decide_True.
Qed.

Lemma MUX_SelectChannel_mirrors h channel w :
  en_separate (config h) -> en_mirrors (h, w) ->
  en_mirrors (MUX_SelectChannel h channel w).
Proof.
  intros Hsep [Hg Ht]. rewrite MUX_SelectChannel_gen.
  unfold en_mirrors in *. simpl in *. split.
  - by rewrite select_gpio_other.
  - by rewrite last_driven_app, last_driven_select_events.
Qed.

Lemma MUX_Init_mirrors h0 c w0 :
  en_mirrors (mkHandle c 0 false 10, (MUX_Init (Some h0) (Some c) w0).2).
Proof.
  split; simpl.
  - apply lookup_insert_eq.
  - rewrite last_driven_app. simpl. unfold en_line. by rewrite decide_True.
Qed.

Lemma MUX_Enable_mirrors h w : en_mirrors (MUX_Enable h w).
Proof.
  split; simpl.
  - apply lookup_insert_eq.
  - rewrite last_driven_app. simpl. unfold en_line. by rewrite decide_True.
Qed.

Lemma MUX_Disable_mirrors h w : en_mirrors (MUX_Disable h w).
Proof.
  split; simpl.
  - apply lookup_insert_eq.
  - rewrite last_driven_app. simpl. unfold en_line. by rewrite decide_True.
Qed.

End Lines.

(** ** The sweep loop *)

Section Sweep.

(** Loop invariant rule for the body of [MUX_ReadAllChannels]. *)
Lemma read_loop_ind (I : MUX_Handle_t -> World -> Prop) (data : Z) :
  (forall i h w, 0 <= i < 2 ^ 8 -> I h w ->
      I (MUX_ReadChannel h i w).1.2
        (poke (data + i) (MUX_ReadChannel h i w).1.1 (MUX_ReadChannel h i w).2)) ->
  forall k i h w, 0 <= i < 2 ^ 8 -> I h w ->
    I (read_loop k i data h w).1 (read_loop k i data h w).2.
Proof.
  intros Hbody k. induction k as [|k IH]; intros i h w Hi HI; simpl; [done|].
  specialize (Hbody i h w Hi HI).
  destruct (MUX_ReadChannel h i w) as [[v h1] w1]. simpl in Hbody.
  apply IH; [|done].
  apply Z.mod_pos_bound. lia.
Qed.

Lemma read_loop_enabled k i data h w :
  0 <= i < 2 ^ 8 -> is_enabled h = true ->
  is_enabled (read_loop k i data h w).1 = true.
Proof.
  intros Hi He.
  apply (read_loop_ind (fun h _ => is_enabled h = true) data); [|done..].
  intros. by rewrite MUX_ReadChannel_eq.
Qed.

Lemma read_loop_S k i data h w :
  read_loop (S k) i data h w =
  read_loop k ((i + 1) mod 2 ^ 8) data (MUX_ReadChannel h i w).1.2
            (poke (data + i) (MUX_ReadChannel h i w).1.1 (MUX_ReadChannel h i w).2).
Proof. simpl. by destruct (MUX_ReadChannel h i w) as [[v h1] w1]. Qed.

Lemma read_each_cons ch rest h w :
  read_each (ch :: rest) h w =
  ((MUX_ReadChannel h ch w).1.1 ::
     (read_each rest (MUX_ReadChannel h ch w).1.2 (MUX_ReadChannel h ch w).2).1.1,
   (read_each rest (MUX_ReadChannel h ch w).1.2 (MUX_ReadChannel h ch w).2).1.2,
   (read_each rest (MUX_ReadChannel h ch w).1.2 (MUX_ReadChannel h ch w).2).2).
Proof.
  simpl. destruct (MUX_ReadChannel h ch w) as [[v h1] w1]. simpl.
  by destruct (read_each rest h1 w1) as [[vs h2] w2].
Qed.

(** The single-channel read neither reads nor writes the sample memory. *)
Lemma MUX_ReadChannel_with_ram h channel m w :
  MUX_ReadChannel h channel (with_ram m w) =
  ((MUX_ReadChannel h channel w).1.1, (MUX_ReadChannel h channel w).1.2,
   with_ram m (MUX_ReadChannel h channel w).2).
Proof. by rewrite !MUX_ReadChannel_eq. Qed.

Lemma read_each_length chs h w :
  length (read_each chs h w).1.1 = length chs.
Proof.
  revert h w. induction chs as [|ch rest IH]; intros h w; [done|].
  rewrite read_each_cons. simpl. by rewrite IH.
Qed.

Lemma read_each_ram chs h w : ram (read_each chs h w).2 = ram w.
Proof.
  revert h w. induction chs as [|ch rest IH]; intros h w; [done|].
  rewrite read_each_cons. simpl. rewrite IH. by rewrite MUX_ReadChannel_eq.
Qed.

(** After a sweep, the selected channel is the last one read. *)
Lemma read_each_current chs h w c :
  last chs = Some c -> c < MUX_CHANNELS ->
  current_channel (read_each chs h w).1.2 = c.
Proof.
  revert h w. induction chs as [|ch rest IH]; intros h w Hlast Hc; [done|].
  rewrite read_each_cons. simpl. destruct rest as [|x r].
  - injection Hlast as ->. rewrite MUX_ReadChannel_eq. simpl.
    by destruct (Z.leb_spec MUX_CHANNELS c); [lia|].
  - apply IH; [|done]. by rewrite last_cons_cons in Hlast.
Qed.

Lemma store_samples_lookup vs addr m a :
  store_samples addr vs m !! a =
  if decide (addr <= a < addr + Z.of_nat (length vs))
  then vs !! Z.to_nat (a - addr) else m !! a.
Proof.
  revert addr m. induction vs as [|v rest IH]; intros addr m; simpl.
  - by rewrite decide_False by lia.
  - rewrite IH. destruct (decide (a = addr)) as [->|Hne].
    + rewrite decide_False, decide_True by lia.
      rewrite lookup_insert_eq. by replace (addr - addr) with 0 by lia.
    + rewrite lookup_insert_ne by done.
      destruct (decide (addr + 1 <= a < addr + 1 + Z.of_nat (length rest))).
      * rewrite decide_True by lia.
        replace (Z.to_nat (a - addr)) with (S (Z.to_nat (a - (addr + 1)))) by lia.
        done.
      * by rewrite decide_False by lia.
Qed.

(** The loop of [MUX_ReadAllChannels] run for [k] iterations from index [i]
    is the sweep over channels [i], ..., [i + k - 1], with the samples stored
    from [data + i] on. *)
Lemma read_loop_read_each k : forall i data h w m,
  0 <= i -> i + Z.of_nat k < 2 ^ 8 ->
  read_loop k i data h (with_ram m w) =
  ((read_each (seqZ i (Z.of_nat k)) h w).1.2,
   with_ram (store_samples (data + i) (read_each (seqZ i (Z.of_nat k)) h w).1.1 m)
            (read_each (seqZ i (Z.of_nat k)) h w).2).
Proof.
  induction k as [|k IH]; intros i data h w m Hi Hk; [done|].
  rewrite read_loop_S, MUX_ReadChannel_with_ram. simpl fst; simpl snd.
  rewrite seqZ_cons by lia. rewrite read_each_cons. simpl fst; simpl snd.
  rewrite Z.mod_small by lia.
  replace (Z.pred (Z.of_nat (S k))) with (Z.of_nat k) by lia.
  change (poke (data + i) (MUX_ReadChannel h i w).1.1
               (with_ram m (MUX_ReadChannel h i w).2))
    with (with_ram (<[data + i := (MUX_ReadChannel h i w).1.1]> m)
                   (MUX_ReadChannel h i w).2).
  rewrite IH by lia.
  replace (data + (i + 1)) with (data + i + 1) by lia.
  done.
Qed.

End Sweep.

(** ** Line levels with separately wired select lines *)

(** When the four select lines are four different pins, a selection in range
    leaves each of them at the level of its bit. *)
Lemma MUX_SelectChannel_levels h channel w :
  NoDup (select_lines (config h)) -> 0 <= channel < 16 ->
  let g := gpio (MUX_SelectChannel h channel w).2 in
  g !! s0_line (config h) = Some (level_of_bit channel 0) /\
  g !! s1_line (config h) = Some (level_of_bit channel 1) /\
  g !! s2_line (config h) = Some (level_of_bit channel 2) /\
  g !! s3_line (config h) = Some (level_of_bit channel 3).
Proof.
  intros Hnd Hc. cbv zeta.
  rewrite MUX_SelectChannel_eq by (unfold MUX_CHANNELS; lia). simpl.
  unfold select_lines in Hnd.
  apply NoDup_cons in Hnd as [H0 Hnd]. apply NoDup_cons in Hnd as [H1 Hnd].
  apply NoDup_cons in Hnd as [H2 _].
  repeat rewrite not_elem_of_cons in H0.
  repeat rewrite not_elem_of_cons in H1.
  repeat rewrite not_elem_of_cons in H2.
  destruct H0 as (? & ? & ? & _), H1 as (? & ? & _), H2 as (? & _).
  repeat split.
  - rewrite !lookup_insert_ne by done. apply lookup_insert_eq.
  - rewrite !lookup_insert_ne by done. apply lookup_insert_eq.
  - rewrite lookup_insert_ne by done. apply lookup_insert_eq.
  - apply lookup_insert_eq.
Qed.

(** C1. For every channel in 0..15, [MUX_SelectChannel] issues exactly one
    write per select line, S0 first, each with the level of the matching bit
    of the channel (bit 0 on S0 up to bit 3 on S3, set for 1 and reset for 0);
    the four levels decode to the channel; the line levels are those of the
    four writes applied in order, so four separately wired select lines each
    stand at the level of their bit; [current_channel] becomes the channel,
    which [MUX_GetCurrentChannel] then returns; no other handle field
    changes. *)
Theorem MUX_SelectChannel_in_range h channel w :
  0 <= channel < 16 ->
  let h' := (MUX_SelectChannel h channel w).1 in
  let w' := (MUX_SelectChannel h channel w).2 in
  trace w' = trace w ++ select_writes (config h) channel ++
             repeat EvNop (Z.to_nat (delay_cycles (SystemCoreClock w) (settling_time_us h))) /\
  select_writes (config h) channel =
    [EvGpioWrite (s0_port (config h)) (s0_pin (config h)) (if Z.testbit channel 0 then GPIO_PIN_SET else GPIO_PIN_RESET);
     EvGpioWrite (s1_port (config h)) (s1_pin (config h)) (if Z.testbit channel 1 then GPIO_PIN_SET else GPIO_PIN_RESET);
     EvGpioWrite (s2_port (config h)) (s2_pin (config h)) (if Z.testbit channel 2 then GPIO_PIN_SET else GPIO_PIN_RESET);
     EvGpioWrite (s3_port (config h)) (s3_pin (config h)) (if Z.testbit channel 3 then GPIO_PIN_SET else GPIO_PIN_RESET)] /\
  select_code (level_of_bit channel 0) (level_of_bit channel 1)
              (level_of_bit channel 2) (level_of_bit channel 3) = channel /\
  gpio w' = <[s3_line (config h) := level_of_bit channel 3]>
              (<[s2_line (config h) := level_of_bit channel 2]>
                (<[s1_line (config h) := level_of_bit channel 1]>
                  (<[s0_line (config h) := level_of_bit channel 0]> (gpio w)))) /\
  (NoDup (select_lines (config h)) ->
   gpio w' !! s0_line (config h) = Some (level_of_bit channel 0) /\
   gpio w' !! s1_line (config h) = Some (level_of_bit channel 1) /\
   gpio w' !! s2_line (config h) = Some (level_of_bit channel 2) /\
   gpio w' !! s3_line (config h) = Some (level_of_bit channel 3)) /\
  current_channel h' = channel /\
  MUX_GetCurrentChannel h' = channel /\
  config h' = config h /\ is_enabled h' = is_enabled h /\
  settling_time_us h' = settling_time_us h.
Proof.
  intros Hc. cbv zeta.
  pose proof (MUX_SelectChannel_levels h channel w) as Hlev. cbv zeta in Hlev.
  rewrite MUX_SelectChannel_eq in * by (unfold MUX_CHANNELS; lia).
  unfold select_events. simpl in *.
  destruct (Z.leb_spec MUX_CHANNELS channel); [unfold MUX_CHANNELS in *; lia|].
  do 2 (split; [reflexivity|]). split; [by apply select_code_bits|].
  split; [reflexivity|]. split; [auto|]. by repeat split.
Qed.

(** C2. [MUX_Init] with a non-null handle and a non-null configuration
    returns [HAL_OK]; whatever the handle held before, it now holds a copy of
    the configuration, [current_channel = 0], [is_enabled = false] and
    [settling_time_us = 10]; the driver writes reset (logic-low) to S0, S1, S2
    and S3 and then set (logic-high, the inactive level of the active-low
    enable) to the enable line, and does nothing else to the hardware. *)
Theorem MUX_Init_success h0 c w :
  let r := MUX_Init (Some h0) (Some c) w in
  r.1.1 = HAL_OK /\
  r.1.2 = Some (mkHandle c 0 false 10) /\
  trace r.2 = trace w ++
    [EvGpioWrite (s0_port c) (s0_pin c) GPIO_PIN_RESET;
     EvGpioWrite (s1_port c) (s1_pin c) GPIO_PIN_RESET;
     EvGpioWrite (s2_port c) (s2_pin c) GPIO_PIN_RESET;
     EvGpioWrite (s3_port c) (s3_pin c) GPIO_PIN_RESET;
     EvGpioWrite (en_port c) (en_pin c) GPIO_PIN_SET] /\
  gpio r.2 = <[en_line c := GPIO_PIN_SET]>
               (<[s3_line c := GPIO_PIN_RESET]>
                 (<[s2_line c := GPIO_PIN_RESET]>
                   (<[s1_line c := GPIO_PIN_RESET]>
                     (<[s0_line c := GPIO_PIN_RESET]> (gpio w))))) /\
  gpio r.2 !! en_line c = Some GPIO_PIN_SET /\
  (forall l, l ∈ select_lines c -> l <> en_line c ->
             gpio r.2 !! l = Some GPIO_PIN_RESET) /\
  adc_conversions r.2 = adc_conversions w /\ adc_dr r.2 = adc_dr w /\
  ram r.2 = ram w.
Proof.
  cbv zeta.
  assert (Hg : gpio (MUX_Init (Some h0) (Some c) w).2 =
               <[en_line c := GPIO_PIN_SET]>
                 (<[s3_line c := GPIO_PIN_RESET]>
                   (<[s2_line c := GPIO_PIN_RESET]>
                     (<[s1_line c := GPIO_PIN_RESET]>
                       (<[s0_line c := GPIO_PIN_RESET]> (gpio w)))))) by reflexivity.
  split; [reflexivity|]. split; [reflexivity|].
  split; [simpl; by rewrite <- !app_assoc|].
  split; [exact Hg|]. rewrite Hg.
  split; [apply lookup_insert_eq|]. split; [|done].
  intros l Hl Hne. rewrite lookup_insert_ne by done.
  unfold select_lines in Hl. rewrite !elem_of_cons in Hl.
  destruct Hl as [-> | [-> | [-> | [-> | Hl]]]].
  - destruct (decide (s3_line c = s0_line c)) as [E|];
      [rewrite E; apply lookup_insert_eq | rewrite lookup_insert_ne by done].
    destruct (decide (s2_line c = s0_line c)) as [E|];
      [rewrite E; apply lookup_insert_eq | rewrite lookup_insert_ne by done].
    destruct (decide (s1_line c = s0_line c)) as [E|];
      [rewrite E; apply lookup_insert_eq | rewrite lookup_insert_ne by done].
    apply lookup_insert_eq.
  - destruct (decide (s3_line c = s1_line c)) as [E|];
      [rewrite E; apply lookup_insert_eq | rewrite lookup_insert_ne by done].
    destruct (decide (s2_line c = s1_line c)) as [E|];
      [rewrite E; apply lookup_insert_eq | rewrite lookup_insert_ne by done].
    apply lookup_insert_eq.
  - destruct (decide (s3_line c = s2_line c)) as [E|];
      [rewrite E; apply lookup_insert_eq | rewrite lookup_insert_ne by done].
    apply lookup_insert_eq.
  - apply lookup_insert_eq.
  - by apply elem_of_nil in Hl.
Qed.

(** C4. The two status-returning calls report errors exactly on their
    argument checks: [MUX_Init] returns [HAL_ERROR] exactly when the handle or
    the configuration is null, [MUX_ReadAllChannels] exactly when the buffer
    is null or the count exceeds 16; either call returns [HAL_OK] otherwise,
    and a call that returns [HAL_ERROR] leaves the handle and the whole
    hardware state (lines, trace of HAL calls, ADC, memory) as they were. *)
Theorem error_returns_are_atomic :
  (forall hmux cfg w,
      let r := MUX_Init hmux cfg w in
      (r.1.1 = HAL_ERROR <-> hmux = None \/ cfg = None) /\
      (r.1.1 = HAL_OK \/ r.1.1 = HAL_ERROR) /\
      (r.1.1 = HAL_ERROR -> r.1.2 = hmux /\ r.2 = w)) /\
  (forall hmux data num_channels w,
      let r := MUX_ReadAllChannels hmux data num_channels w in
      (r.1.1 = HAL_ERROR <-> data = NULL \/ 16 < num_channels) /\
      (r.1.1 = HAL_OK \/ r.1.1 = HAL_ERROR) /\
      (r.1.1 = HAL_ERROR -> r.1.2 = hmux /\ r.2 = w)).
Proof.
  split.
  - intros [h|] [c|] w; simpl; repeat split; intros; try done; auto;
      destruct_or?; done.
  - intros h data n w. cbv zeta. unfold MUX_ReadAllChannels, MUX_CHANNELS.
    destruct (Z.eqb_spec data NULL) as [Hd|Hd];
      destruct (Z.ltb_spec 16 n) as [Hn|Hn]; simpl;
      try (repeat split; intros; auto; done).
    destruct (if negb (is_enabled h) then MUX_Enable h w else (h, w)) as [h1 w1].
    destruct (read_loop (Z.to_nat n) 0 data h1 w1) as [h2 w2]. simpl.
    repeat split; intros; auto; try done. destruct_or?; [done | lia].
Qed.

(** C8. [MUX_Enable] and [MUX_Disable] are idempotent: a second call in a row
    leaves the handle and the level of every line, the enable line included,
    as the first call left them.  [MUX_Enable] followed by [MUX_Disable]
    leaves the enable line set (its inactive level) and [is_enabled = false]. *)
Theorem enable_disable_idempotent :
  (forall h w,
      let once := MUX_Enable h w in
      let twice := MUX_Enable once.1 once.2 in
      twice.1 = once.1 /\ gpio twice.2 = gpio once.2 /\
      gpio twice.2 !! en_line (config h) = Some GPIO_PIN_RESET) /\
  (forall h w,
      let once := MUX_Disable h w in
      let twice := MUX_Disable once.1 once.2 in
      twice.1 = once.1 /\ gpio twice.2 = gpio once.2 /\
      gpio twice.2 !! en_line (config h) = Some GPIO_PIN_SET) /\
  (forall h w,
      let s := MUX_Disable (MUX_Enable h w).1 (MUX_Enable h w).2 in
      gpio s.2 !! en_line (config h) = Some GPIO_PIN_SET /\
      is_enabled s.1 = false /\
      last_driven (en_line (config h)) (trace s.2) = Some GPIO_PIN_SET).
Proof.
  repeat split; simpl.
  - apply insert_insert_eq.
  - apply lookup_insert_eq.
  - apply insert_insert_eq.
  - apply lookup_insert_eq.
  - apply lookup_insert_eq.
  - rewrite <- app_assoc. simpl.
    induction (trace w) as [|e t IH]; simpl.
    + unfold en_line. by rewrite !decide_True.
    + by rewrite IH.
Qed.

(** C9. [MUX_SetSettlingTime] stores its argument, zero included, into
    [settling_time_us] without checking it, and changes no other field of the
    handle; the call does not touch the hardware state.  With the value zero
    the delay loop computes zero cycles, [delay_us] does nothing, and a
    channel selection that follows issues its four line writes and no
    [__NOP] at all. *)
Theorem MUX_SetSettlingTime_only_sets_time :
  (forall h t,
      let h' := MUX_SetSettlingTime h t in
      settling_time_us h' = t /\ current_channel h' = current_channel h /\
      is_enabled h' = is_enabled h /\ config h' = config h) /\
  (forall h t w, run_op (OpSetSettlingTime t) (h, w) = (MUX_SetSettlingTime h t, w)) /\
  (forall clock, delay_cycles clock 0 = 0) /\
  (forall w, delay_us 0 w = w) /\
  (forall h channel w,
      trace (MUX_SelectChannel (MUX_SetSettlingTime h 0) channel w).2 =
      trace w ++ (if 16 <=? channel then [] else select_writes (config h) channel)).
Proof.
  split; [done|]. split; [done|].
  split; [apply delay_cycles_zero|]. split; [apply delay_us_zero|].
  intros h channel w. rewrite MUX_SelectChannel_gen. simpl.
  unfold select_events, MUX_CHANNELS. simpl.
  destruct (16 <=? channel); [done|].
  rewrite delay_cycles_zero. simpl. unfold select_writes. by rewrite ?app_nil_r.
Qed.

(** A read of a channel >= 16, on any configuration: the inner selection is a
    no-op, the enable line is the only line the call may drive, and the
    sample is converted with the lines as the optional enable left them. *)
Lemma MUX_ReadChannel_skips_select h channel w :
  16 <= channel ->
  let before := if negb (is_enabled h) then MUX_Enable h w else (h, w) in
  let r := MUX_ReadChannel h channel w in
  MUX_SelectChannel before.1 channel before.2 = before /\
  r.1.2 = mkHandle (config h) (current_channel h) true (settling_time_us h) /\
  trace r.2 = trace w ++
    (if is_enabled h then []
     else [EvGpioWrite (en_port (config h)) (en_pin (config h)) GPIO_PIN_RESET]) ++
    [EvAdcStart (hadc (config h)); EvAdcPoll (hadc (config h)) HAL_MAX_DELAY;
     EvAdcGetValue (hadc (config h)); EvAdcStop (hadc (config h))] /\
  gpio r.2 = gpio before.2 /\
  (forall l, l <> en_line (config h) -> gpio r.2 !! l = gpio w !! l) /\
  (is_enabled h = true -> gpio r.2 = gpio w) /\
  r.1.1 = (adc_backend w (hadc (config h)) (gpio before.2) (adc_conversions w)
           mod 2 ^ 32) mod 2 ^ 16.
Proof.
  intros Hc. cbv zeta.
  rewrite MUX_ReadChannel_eq. unfold sample_at, select_gpio, select_events,
    enable_gpio, enable_events, adc_events, MUX_CHANNELS.
  destruct (Z.leb_spec 16 channel); [|lia].
  split.
  { rewrite MUX_SelectChannel_skip by (unfold MUX_CHANNELS; lia).
    by destruct (if negb (is_enabled h) then MUX_Enable h w else (h, w)). }
  destruct (is_enabled h) eqn:He; simpl; repeat split; try done.
  - intros l Hl. by rewrite lookup_insert_ne.
Qed.

(** C10, as the code has it.  For every channel >= 16, on a handle whose
    configuration gives the enable line a (port, pin) pair different from each
    of the four select lines, [MUX_ReadChannel] reports nothing: it enables
    the multiplexer if it was disabled (one reset write to the enable line,
    which then stands at reset); its inner channel selection is a no-op; every
    select line, and every line other than the enable line, keeps its level,
    and [current_channel] keeps its value; it then starts, polls, reads and
    stops one ADC conversion and returns that sample, converted with the
    select lines as they stood before the call, so that, when they carried
    the code of [current_channel], the sample is taken with that code still
    on the lines. *)
Theorem MUX_ReadChannel_out_of_range h channel w :
  en_separate (config h) ->
  16 <= channel ->
  let before := if negb (is_enabled h) then MUX_Enable h w else (h, w) in
  let r := MUX_ReadChannel h channel w in
  MUX_SelectChannel before.1 channel before.2 = before /\
  r.1.2 = mkHandle (config h) (current_channel h) true (settling_time_us h) /\
  trace r.2 = trace w ++
    (if is_enabled h then []
     else [EvGpioWrite (en_port (config h)) (en_pin (config h)) GPIO_PIN_RESET]) ++
    [EvAdcStart (hadc (config h)); EvAdcPoll (hadc (config h)) HAL_MAX_DELAY;
     EvAdcGetValue (hadc (config h)); EvAdcStop (hadc (config h))] /\
  gpio r.2 = gpio before.2 /\
  (forall l, l ∈ select_lines (config h) -> gpio r.2 !! l = gpio w !! l) /\
  (forall l, l <> en_line (config h) -> gpio r.2 !! l = gpio w !! l) /\
  (is_enabled h = false -> gpio r.2 !! en_line (config h) = Some GPIO_PIN_RESET) /\
  (is_enabled h = true -> gpio r.2 = gpio w) /\
  r.1.1 = (adc_backend w (hadc (config h)) (gpio before.2) (adc_conversions w)
           mod 2 ^ 32) mod 2 ^ 16 /\
  r.1.1 = (adc_backend w (hadc (config h)) (gpio r.2) (adc_conversions w)
           mod 2 ^ 32) mod 2 ^ 16 /\
  (encodes (config h) (current_channel h) (gpio w) ->
   encodes (config h) (current_channel r.1.2) (gpio r.2)).
Proof.
  intros Hsep Hc. cbv zeta.
  destruct (MUX_ReadChannel_skips_select h channel w Hc)
    as (Hskip & Hh & Ht & Hg & Hother & Hsame & Hv).
  assert (Hsel : forall l, l ∈ select_lines (config h) ->
                           gpio (MUX_ReadChannel h channel w).2 !! l = gpio w !! l).
  { intros l Hl. apply Hother. intros ->. by apply Hsep. }
  do 4 (split; [done|]). split; [exact Hsel|]. split; [exact Hother|].
  split; [|split; [done|split; [done|split]]].
  - intros He. rewrite Hg, He. simpl. apply lookup_insert_eq.
  - by rewrite Hg.
  - rewrite Hh. simpl. unfold encodes, select_lines in *.
    intros (E0 & E1 & E2 & E3).
    rewrite !Hsel; [done|rewrite !elem_of_cons; auto..].
Qed.

(** C10 as stated fails: with S1 and the enable line configured on the same
    pin, after initialising and selecting channel 2 the handle is disabled
    and S1 stands at set; a read of channel 255 then drives that pin to reset
    through the enable write, so a select line changes, and the sample
    returned is the one for code 0 although [current_channel] is still 2,
    whose code gives 102 on this board. *)
Lemma shared_pin_read_moves_select_line :
  reachable any_config shared_s1_state /\
  16 <= 255 < 2 ^ 8 /\
  s1_line (config shared_s1_state.1) ∈ select_lines (config shared_s1_state.1) /\
  current_channel shared_s1_state.1 = 2 /\
  gpio shared_s1_state.2 !! s1_line (config shared_s1_state.1) = Some GPIO_PIN_SET /\
  gpio (MUX_ReadChannel shared_s1_state.1 255 shared_s1_state.2).2
    !! s1_line (config shared_s1_state.1) = Some GPIO_PIN_RESET /\
  current_channel (MUX_ReadChannel shared_s1_state.1 255 shared_s1_state.2).1.2 = 2 /\
  (MUX_ReadChannel shared_s1_state.1 255 shared_s1_state.2).1.1 = 100 /\
  (MUX_ReadChannel shared_s1_state.1 2 shared_s1_state.2).1.1 = 102 /\
  ~ (forall h channel w l,
       16 <= channel -> l ∈ select_lines (config h) ->
       gpio (MUX_ReadChannel h channel w).2 !! l = gpio w !! l).
Proof.
  assert (Hr : reachable any_config shared_s1_state).
  { unfold shared_s1_state. apply reachable_step.
    - by apply (reachable_init any_config junk_handle shared_s1_config demo_world).
    - simpl. lia. }
  assert (Hin : s1_line (config shared_s1_state.1)
                ∈ select_lines (config shared_s1_state.1))
    by (apply (bool_decide_unpack _); by vm_compute).
  split; [done|]. split; [lia|]. split; [done|].
  do 6 (split; [by vm_compute|]).
  intros H.
  specialize (H shared_s1_state.1 255 shared_s1_state.2 _ ltac:(lia) Hin).
  by vm_compute in H.
Qed.

(** C6. [MUX_ReadChannel] on a disabled handle writes reset to the enable
    line before any select-line write and before the ADC conversion; after
    every [MUX_ReadChannel], and after every [MUX_ReadAllChannels] that
    returns [HAL_OK], [is_enabled] is [true]; an enabled handle is still
    enabled after either read call, whatever it returns. *)
Theorem reads_leave_enabled :
  (forall h channel w,
      is_enabled h = false ->
      trace (MUX_ReadChannel h channel w).2 =
      trace w ++
      [EvGpioWrite (en_port (config h)) (en_pin (config h)) GPIO_PIN_RESET] ++
      select_events h channel w ++
      [EvAdcStart (hadc (config h)); EvAdcPoll (hadc (config h)) HAL_MAX_DELAY;
       EvAdcGetValue (hadc (config h)); EvAdcStop (hadc (config h))]) /\
  (forall h channel w, is_enabled (MUX_ReadChannel h channel w).1.2 = true) /\
  (forall h data num_channels w,
      (MUX_ReadAllChannels h data num_channels w).1.1 = HAL_OK ->
      is_enabled (MUX_ReadAllChannels h data num_channels w).1.2 = true) /\
  (forall h data num_channels w,
      is_enabled h = true ->
      is_enabled (MUX_ReadAllChannels h data num_channels w).1.2 = true).
Proof.
  assert (Hloop : forall h data n w,
    is_enabled
      (read_loop n 0 data
         (if negb (is_enabled h) then MUX_Enable h w else (h, w)).1
         (if negb (is_enabled h) then MUX_Enable h w else (h, w)).2).1 = true).
  { intros h data n w. apply read_loop_enabled; [lia|].
    by destruct (is_enabled h) eqn:He. }
  repeat split.
  - intros h channel w He. rewrite MUX_ReadChannel_eq. simpl.
    unfold enable_events. by rewrite He.
  - intros h channel w. by rewrite MUX_ReadChannel_eq.
  - intros h data n w. unfold MUX_ReadAllChannels.
    destruct ((data =? NULL) || (MUX_CHANNELS <? n)); [done|].
    intros _. specialize (Hloop h data (Z.to_nat n) w).
    destruct (if negb (is_enabled h) then MUX_Enable h w else (h, w)) as [h1 w1].
    simpl in Hloop. by destruct (read_loop (Z.to_nat n) 0 data h1 w1).
  - intros h data n w He. unfold MUX_ReadAllChannels.
    destruct ((data =? NULL) || (MUX_CHANNELS <? n)); [done|].
    specialize (Hloop h data (Z.to_nat n) w).
    destruct (if negb (is_enabled h) then MUX_Enable h w else (h, w)) as [h1 w1].
    simpl in Hloop. by destruct (read_loop (Z.to_nat n) 0 data h1 w1).
Qed.

(** ** Invariants of the reachable states *)

(** C3. For every channel >= 16, [MUX_SelectChannel] is a silent no-op: it
    returns nothing to report, and hands back the handle and the hardware
    state exactly as it received them, so no line is written and no handle
    field changes.  Hence, in every state reachable from a successful
    [MUX_Init] by driver calls, [current_channel] is in [0,15]. *)
Theorem MUX_SelectChannel_rejects_large :
  (forall h channel w, 16 <= channel -> MUX_SelectChannel h channel w = (h, w)) /\
  (forall s, reachable any_config s -> 0 <= current_channel s.1 <= 15).
Proof.
  split; [intros; by apply MUX_SelectChannel_skip|].
  induction 1 as [h0 c w0 h w _ Hinit | op [h w] _ IH Hop].
  - simpl in Hinit. injection Hinit as <- _. simpl. lia.
  - simpl in IH. destruct op as [[c|]| | | | ch | ch | data n | ]; simpl in *; try done.
    + rewrite MUX_SelectChannel_gen. simpl. unfold MUX_CHANNELS.
      destruct (Z.leb_spec 16 ch); lia.
    + rewrite MUX_ReadChannel_eq. simpl. unfold MUX_CHANNELS.
      destruct (Z.leb_spec 16 ch); lia.
    + unfold MUX_ReadAllChannels.
      destruct ((data =? NULL) || (MUX_CHANNELS <? n)); [done|].
      pose proof (read_loop_ind (fun h _ => 0 <= current_channel h <= 15) data) as Hl.
      destruct (if negb (is_enabled h) then MUX_Enable h w else (h, w)) as [h1 w1] eqn:E.
      assert (H1 : 0 <= current_channel h1 <= 15).
      { destruct (is_enabled h); simpl in E; injection E as <- _; simpl; lia. }
      specialize (Hl ltac:(intros i h' w' Hi Hh'; rewrite MUX_ReadChannel_eq;
                           simpl in *; unfold MUX_CHANNELS;
                           destruct (Z.leb_spec 16 i); lia)
                     (Z.to_nat n) 0 h1 w1 ltac:(lia) H1).
      by destruct (read_loop (Z.to_nat n) 0 data h1 w1).
Qed.

Section Mirror.

Lemma mirror_inv_step op h w :
  op_ok en_separate op -> mirror_inv h w ->
  mirror_inv (run_op op (h, w)).1 (run_op op (h, w)).2.
Proof.
  intros Hop [Hsep Hm].
  destruct op as [[c|]| t | | | ch | ch | data n | ]; simpl in Hop |- *; try done.
  - split; [done|]. apply (MUX_Init_mirrors h c w).
  - split; [done|]. apply MUX_Enable_mirrors.
  - split; [done|]. apply MUX_Disable_mirrors.
  - split.
    + by rewrite MUX_SelectChannel_gen.
    + pose proof (MUX_SelectChannel_mirrors h ch w Hsep Hm) as H.
      by destruct (MUX_SelectChannel h ch w).
  - pose proof (MUX_ReadChannel_mirrors h ch w Hsep Hm) as H.
    by destruct (MUX_ReadChannel h ch w) as [[v h'] w'].
  - unfold MUX_ReadAllChannels.
    destruct ((data =? NULL) || (MUX_CHANNELS <? n)); [done|].
    assert (H1 : mirror_inv (if negb (is_enabled h) then MUX_Enable h w else (h, w)).1
                            (if negb (is_enabled h) then MUX_Enable h w else (h, w)).2).
    { destruct (is_enabled h) eqn:He; simpl negb; cbv iota; [done|].
      split; [done|]. apply MUX_Enable_mirrors. }
    destruct (if negb (is_enabled h) then MUX_Enable h w else (h, w)) as [h1 w1].
    pose proof (read_loop_ind mirror_inv data) as Hl.
    specialize (Hl ltac:(intros i h' w' _ [Hs' Hm'];
                         exact (MUX_ReadChannel_mirrors h' i w' Hs' Hm'))
                   (Z.to_nat n) 0 h1 w1 ltac:(lia) H1).
    by destruct (read_loop (Z.to_nat n) 0 data h1 w1).
Qed.

Lemma reachable_mirror_inv s :
  reachable en_separate s -> mirror_inv s.1 s.2.
Proof.
  induction 1 as [h0 c w0 h w Hc Hinit | op [h w] _ IH Hop].
  - pose proof (MUX_Init_mirrors h0 c w0) as Hm.
    rewrite Hinit in Hm. simpl in Hinit. injection Hinit as <- _.
    by split.
  - by apply mirror_inv_step.
Qed.

End Mirror.

(** C7, as the code has it.  In every state reachable from a successful
    [MUX_Init] by driver calls, all initialisations using a configuration
    whose enable line is a (port, pin) pair different from each of the four
    select lines, [is_enabled] mirrors the enable line: it is [false] exactly
    when the line stands at, and was last driven to, set (inactive,
    logic-high), and [true] exactly when the line stands at, and was last
    driven to, reset (active, logic-low). *)
Theorem is_enabled_mirrors_separate_enable_line s :
  reachable en_separate s ->
  en_mirrors s /\
  (is_enabled s.1 = false <->
     gpio s.2 !! en_line (config s.1) = Some GPIO_PIN_SET) /\
  (is_enabled s.1 = true <->
     gpio s.2 !! en_line (config s.1) = Some GPIO_PIN_RESET) /\
  (is_enabled s.1 = false <->
     last_driven (en_line (config s.1)) (trace s.2) = Some GPIO_PIN_SET) /\
  (is_enabled s.1 = true <->
     last_driven (en_line (config s.1)) (trace s.2) = Some GPIO_PIN_RESET).
Proof.
  intros [_ Hm]%reachable_mirror_inv. destruct s as [h w]. simpl in *.
  split; [done|].
  destruct Hm as [Hg Ht]. simpl in *. rewrite Hg, Ht.
  destruct (is_enabled h); simpl; repeat split; intros; congruence.
Qed.

(** C7 as stated fails: with S0 and the enable line configured on the same
    pin, initialising and then selecting channel 0 leaves [is_enabled = false]
    while the enable line stands at, and was last driven to, reset (its
    active level). *)
Lemma shared_pin_breaks_mirror :
  reachable any_config shared_pin_state /\
  is_enabled shared_pin_state.1 = false /\
  gpio shared_pin_state.2 !! en_line (config shared_pin_state.1) = Some GPIO_PIN_RESET /\
  last_driven (en_line (config shared_pin_state.1)) (trace shared_pin_state.2)
    = Some GPIO_PIN_RESET /\
  ~ (forall s, reachable any_config s -> en_mirrors s).
Proof.
  assert (Hr : reachable any_config shared_pin_state).
  { unfold shared_pin_state. apply reachable_step.
    - by apply (reachable_init any_config junk_handle shared_pin_config demo_world).
    - simpl. lia. }
  split; [done|]. split; [done|].
  split; [by vm_compute|]. split; [by vm_compute|].
  intros H. destruct (H _ Hr) as [Hg _]. by vm_compute in Hg.
Qed.

(** C5. For every count <= 16 and non-null buffer, [MUX_ReadAllChannels]
    returns [HAL_OK]; after enabling the multiplexer if it was disabled it
    performs the single-channel read of [MUX_ReadChannel] once per channel
    0, 1, ..., count-1 in that order, and [buffer[i]] holds the sample that the
    read of channel [i] returned; no other memory cell changes; the handle and
    the hardware are as that sequence of reads leaves them.  With count = 14
    there are 14 samples, one per channel 0..13, and [current_channel] is 13
    afterwards. *)
Theorem MUX_ReadAllChannels_sweeps h data num_channels w :
  0 <= num_channels <= 16 -> data <> NULL ->
  let start := if negb (is_enabled h) then MUX_Enable h w else (h, w) in
  let sweep := read_each (seqZ 0 num_channels) start.1 start.2 in
  let r := MUX_ReadAllChannels h data num_channels w in
  r.1.1 = HAL_OK /\
  r.1.2 = sweep.1.2 /\
  r.2 = with_ram (store_samples data sweep.1.1 (ram w)) sweep.2 /\
  gpio r.2 = gpio sweep.2 /\ trace r.2 = trace sweep.2 /\
  length sweep.1.1 = Z.to_nat num_channels /\
  (forall i, 0 <= i < num_channels ->
     exists v, sweep.1.1 !! Z.to_nat i = Some v /\ ram r.2 !! (data + i) = Some v) /\
  (forall a, ~ (data <= a < data + num_channels) -> ram r.2 !! a = ram w !! a) /\
  (0 < num_channels -> current_channel r.1.2 = num_channels - 1) /\
  (num_channels = 14 -> length sweep.1.1 = 14%nat /\ current_channel r.1.2 = 13).
Proof.
  intros Hn Hd. cbv zeta.
  set (start := if negb (is_enabled h) then MUX_Enable h w else (h, w)).
  assert (Hram : ram start.2 = ram w).
  { unfold start. by destruct (is_enabled h). }
  assert (Hr : MUX_ReadAllChannels h data num_channels w =
               (HAL_OK, (read_each (seqZ 0 num_channels) start.1 start.2).1.2,
                with_ram (store_samples data
                            (read_each (seqZ 0 num_channels) start.1 start.2).1.1 (ram w))
                         (read_each (seqZ 0 num_channels) start.1 start.2).2)).
  { unfold MUX_ReadAllChannels, MUX_CHANNELS.
    destruct (Z.eqb_spec data NULL); [done|].
    destruct (Z.ltb_spec 16 num_channels); [lia|]. simpl orb. cbv iota.
    fold start. destruct start as [h1 w1] eqn:E. simpl in *.
    pose proof (read_loop_read_each (Z.to_nat num_channels) 0 data h1 w1 (ram w1)) as Hl.
    rewrite with_ram_id in Hl. rewrite Hl by lia.
    by rewrite Z2Nat.id, Z.add_0_r, Hram by lia. }
  set (sweep := read_each (seqZ 0 num_channels) start.1 start.2) in *.
  assert (Hlen : length sweep.1.1 = Z.to_nat num_channels).
  { unfold sweep. by rewrite read_each_length, length_seqZ. }
  assert (Hcur : 0 < num_channels -> current_channel sweep.1.2 = num_channels - 1).
  { intros Hpos. unfold sweep. apply read_each_current; [|unfold MUX_CHANNELS; lia].
    rewrite last_lookup, length_seqZ.
    rewrite lookup_seqZ_lt by lia. f_equal. lia. }
  rewrite Hr. simpl.
  do 6 (split; [done|]). split; [|split; [|split]].
  - intros i Hi. rewrite store_samples_lookup, decide_True by lia.
    replace (data + i - data) with i by lia.
    destruct (lookup_lt_is_Some_2 sweep.1.1 (Z.to_nat i)) as [v Hv]; [lia|].
    exists v. by rewrite Hv.
  - intros a Ha. by rewrite store_samples_lookup, decide_False by lia.
  - done.
  - intros ->. split; [by rewrite Hlen | apply Hcur; lia].
Qed.

(** ** Concrete runs on the demo board *)

Lemma demo_config_separate : en_separate demo_config.
Proof.
  unfold en_separate, select_lines. rewrite !not_elem_of_cons.
  repeat split; try discriminate. apply not_elem_of_nil.
Defined.

Lemma demo_boot_reachable P : P demo_config -> reachable P demo_boot.
Proof.
  intros HP.
  exact (reachable_init P junk_handle demo_config demo_world _ _ HP eq_refl).
Defined.

Lemma demo_run_reachable P : P demo_config -> reachable P demo_run.
Proof.
  intros HP. unfold demo_run.
  apply reachable_step; [apply reachable_step; [apply reachable_step|]|].
  - by apply demo_boot_reachable.
  - exact I.
  - simpl. lia.
  - simpl. lia.
Defined.

(** The scenario of the spec: initialise, set the settle time to zero, read
    channel 5.  The select lines end at S0=1, S1=0, S2=1, S3=0, no [__NOP] is
    executed, and the sample is what the backend reports for code 5. *)
Example scenario_read_channel_5 :
  let h := MUX_SetSettlingTime demo_boot.1 0 in
  let r := MUX_ReadChannel h 5 demo_boot.2 in
  r.1.1 = 105 /\
  gpio r.2 !! (1, 1) = Some GPIO_PIN_SET /\ gpio r.2 !! (1, 2) = Some GPIO_PIN_RESET /\
  gpio r.2 !! (1, 4) = Some GPIO_PIN_SET /\ gpio r.2 !! (1, 8) = Some GPIO_PIN_RESET /\
  gpio r.2 !! (1, 16) = Some GPIO_PIN_RESET /\
  (EvNop ∉ trace r.2) /\ current_channel r.1.2 = 5 /\ is_enabled r.1.2 = true.
Proof.
  cbv zeta. repeat split; try (by vm_compute).
  apply (bool_decide_unpack _). by vm_compute.
Qed.

(** A sweep of the 14 wired sensors on the demo board: cell [1000 + i] holds
    the backend's report for code [i]. *)
Example sweep_14_on_demo :
  let r := MUX_ReadAllChannels demo_boot.1 1000 14 demo_boot.2 in
  r.1.1 = HAL_OK /\
  (fun i => ram r.2 !! (1000 + i)) <$> seqZ 0 14 = (fun i => Some (100 + i)) <$> seqZ 0 14 /\
  ram r.2 !! 1014 = None /\ current_channel r.1.2 = 13.
Proof. cbv zeta. repeat split; by vm_compute. Qed.

Lemma MUX_Init_success_witness :
  s1_line demo_config ∈ select_lines demo_config /\
  s1_line demo_config <> en_line demo_config /\
  gpio (MUX_Init (Some junk_handle) (Some demo_config) demo_world).2 !! s1_line demo_config
    = Some GPIO_PIN_RESET.
Proof.
  assert (Hin : s1_line demo_config ∈ select_lines demo_config)
    by (apply (bool_decide_unpack _); by vm_compute).
  assert (Hne : s1_line demo_config <> en_line demo_config) by discriminate.
  destruct (MUX_Init_success junk_handle demo_config demo_world)
    as (_ & _ & _ & _ & _ & Hlow & _).
  split; [exact Hin|]. split; [exact Hne|]. exact (Hlow _ Hin Hne).
Defined.

Lemma demo_select_lines_NoDup : NoDup (select_lines demo_config).
Proof. apply (bool_decide_unpack _). by vm_compute. Defined.

Lemma MUX_SelectChannel_in_range_witness :
  0 <= 5 < 16 /\
  NoDup (select_lines (config demo_boot.1)) /\
  MUX_GetCurrentChannel (MUX_SelectChannel demo_boot.1 5 demo_boot.2).1 = 5 /\
  gpio (MUX_SelectChannel demo_boot.1 5 demo_boot.2).2 !! s2_line (config demo_boot.1)
    = Some (level_of_bit 5 2).
Proof.
  split; [lia|]. split; [exact demo_select_lines_NoDup|].
  destruct (MUX_SelectChannel_in_range demo_boot.1 5 demo_boot.2 ltac:(lia))
    as (_ & _ & _ & _ & Hlev & _ & H & _).
  destruct (Hlev demo_select_lines_NoDup) as (_ & _ & H2 & _).
  split; [exact H | exact H2].
Defined.

Lemma MUX_SelectChannel_rejects_large_witness :
  (16 <= 16 /\ MUX_SelectChannel demo_boot.1 16 demo_boot.2 = demo_boot) /\
  (reachable any_config demo_run /\ 0 <= current_channel demo_run.1 <= 15).
Proof.
  destruct MUX_SelectChannel_rejects_large as [Hskip Hrange].
  split; split.
  - lia.
  - exact (Hskip demo_boot.1 16 demo_boot.2 ltac:(lia)).
  - exact (demo_run_reachable any_config I).
  - exact (Hrange demo_run (demo_run_reachable any_config I)).
Defined.

Lemma error_returns_are_atomic_witness :
  (MUX_Init (Some junk_handle) None demo_world).1.1 = HAL_ERROR /\
  (MUX_Init (Some junk_handle) None demo_world).1.2 = Some junk_handle /\
  (MUX_Init (Some junk_handle) None demo_world).2 = demo_world /\
  (MUX_ReadAllChannels demo_boot.1 1000 17 demo_boot.2).1.1 = HAL_ERROR /\
  (MUX_ReadAllChannels demo_boot.1 1000 17 demo_boot.2).1.2 = demo_boot.1 /\
  (MUX_ReadAllChannels demo_boot.1 1000 17 demo_boot.2).2 = demo_boot.2.
Proof.
  destruct error_returns_are_atomic as [Hinit Hall].
  destruct (Hinit (Some junk_handle) None demo_world) as (Hi1 & _ & Hi2).
  destruct (Hall demo_boot.1 1000 17 demo_boot.2) as (Ha1 & _ & Ha2).
  assert (E1 : (MUX_Init (Some junk_handle) None demo_world).1.1 = HAL_ERROR)
    by (apply Hi1; right; reflexivity).
  assert (E2 : (MUX_ReadAllChannels demo_boot.1 1000 17 demo_boot.2).1.1 = HAL_ERROR)
    by (apply Ha1; right; lia).
  destruct (Hi2 E1) as [? ?]. destruct (Ha2 E2) as [? ?].
  repeat split; assumption.
Defined.

Lemma MUX_ReadAllChannels_sweeps_witness :
  0 <= 14 <= 16 /\ 1000 <> NULL /\
  (MUX_ReadAllChannels demo_boot.1 1000 14 demo_boot.2).1.1 = HAL_OK /\
  current_channel (MUX_ReadAllChannels demo_boot.1 1000 14 demo_boot.2).1.2 = 13.
Proof.
  assert (Hn : 0 <= 14 <= 16) by lia.
  assert (Hd : 1000 <> NULL) by discriminate.
  destruct (MUX_ReadAllChannels_sweeps demo_boot.1 1000 14 demo_boot.2 Hn Hd)
    as (Hok & _ & _ & _ & _ & _ & _ & _ & _ & H14).
  destruct (H14 eq_refl) as [_ Hcur].
  repeat split; assumption || lia.
Defined.

Lemma reads_leave_enabled_witness :
  is_enabled demo_boot.1 = false /\
  is_enabled (MUX_ReadChannel demo_boot.1 3 demo_boot.2).1.2 = true /\
  (MUX_ReadAllChannels demo_boot.1 1000 14 demo_boot.2).1.1 = HAL_OK /\
  is_enabled (MUX_ReadAllChannels demo_boot.1 1000 14 demo_boot.2).1.2 = true.
Proof.
  destruct reads_leave_enabled as (_ & Hone & Hall & _).
  assert (Hok : (MUX_ReadAllChannels demo_boot.1 1000 14 demo_boot.2).1.1 = HAL_OK)
    by (vm_compute; reflexivity).
  split; [reflexivity|]. split; [apply Hone|]. split; [exact Hok|].
  exact (Hall demo_boot.1 1000 14 demo_boot.2 Hok).
Defined.

Lemma is_enabled_mirrors_separate_enable_line_witness :
  reachable en_separate demo_run /\ en_mirrors demo_run.
Proof.
  split.
  - exact (demo_run_reachable en_separate demo_config_separate).
  - exact (proj1 (is_enabled_mirrors_separate_enable_line demo_run
                    (demo_run_reachable en_separate demo_config_separate))).
Defined.

Lemma MUX_ReadChannel_out_of_range_witness :
  en_separate (config demo_run.1) /\
  16 <= 200 /\
  encodes (config demo_run.1) (current_channel demo_run.1) (gpio demo_run.2) /\
  (MUX_ReadChannel demo_run.1 200 demo_run.2).1.2 = mkHandle demo_config 3 true 2 /\
  encodes (config demo_run.1)
          (current_channel (MUX_ReadChannel demo_run.1 200 demo_run.2).1.2)
          (gpio (MUX_ReadChannel demo_run.1 200 demo_run.2).2).
Proof.
  assert (Hsep : en_separate (config demo_run.1)) by exact demo_config_separate.
  assert (Hc : 16 <= 200) by lia.
  assert (Henc : encodes (config demo_run.1) (current_channel demo_run.1)
                         (gpio demo_run.2))
    by (repeat split; reflexivity).
  destruct (MUX_ReadChannel_out_of_range demo_run.1 200 demo_run.2 Hsep Hc)
    as (_ & Hh & _ & _ & _ & _ & _ & _ & _ & _ & Hkeep).
  split; [exact Hsep|]. split; [exact Hc|]. split; [exact Henc|].
  split; [exact Hh | exact (Hkeep Henc)].
Defined.


(** * Further properties of the driver *)

(** ** The settle delay *)

(** X1. With a 32-bit [SystemCoreClock] and a 16-bit argument the product in
    [delay_us] never wraps: the loop runs exactly
    [(SystemCoreClock / 1000000) * us / 3] times (both divisions rounding
    down), executes that many [__NOP] and changes nothing else. *)
Theorem delay_us_exact us w :
  0 <= SystemCoreClock w < 2 ^ 32 -> 0 <= us < 2 ^ 16 ->
  let n := SystemCoreClock w / 1000000 * us / 3 in
  delay_cycles (SystemCoreClock w) us = n /\
  3 * n <= SystemCoreClock w / 1000000 * us < 3 * n + 3 /\
  trace (delay_us us w) = trace w ++ repeat EvNop (Z.to_nat n) /\
  gpio (delay_us us w) = gpio w /\ ram (delay_us us w) = ram w /\
  adc_conversions (delay_us us w) = adc_conversions w /\
  adc_dr (delay_us us w) = adc_dr w.
Proof.
  intros Hclk Hus. cbv zeta.
  assert (Hq : 0 <= SystemCoreClock w / 1000000 <= 4294).
  { split; [apply Z.div_pos; lia|].
    apply Z.lt_succ_r. apply Z.div_lt_upper_bound; lia. }
  assert (Hc : delay_cycles (SystemCoreClock w) us =
               SystemCoreClock w / 1000000 * us / 3).
  { unfold delay_cycles. rewrite Z.mod_small; [done|]. nia. }
  split; [done|]. split.
  - pose proof (Z.mul_div_le (SystemCoreClock w / 1000000 * us) 3 ltac:(lia)).
    pose proof (Z.mul_succ_div_gt (SystemCoreClock w / 1000000 * us) 3 ltac:(lia)).
    lia.
  - rewrite delay_us_eq, Hc. by simpl.
Qed.

(** X2. Both divisions of [delay_us] round down, so a request can vanish:
    whenever [(SystemCoreClock / 1000000) * us] is below 3, in particular
    for every [us] when the clock is below 1 MHz, [delay_us] does nothing at
    all and a channel selection issues its four writes with no settle
    iteration. *)
Theorem delay_us_rounds_to_nothing us w :
  0 <= SystemCoreClock w / 1000000 * us < 3 ->
  delay_us us w = w /\
  (forall h channel,
      settling_time_us h = us -> channel < 16 ->
      trace (MUX_SelectChannel h channel w).2 =
      trace w ++ select_writes (config h) channel) /\
  (0 <= SystemCoreClock w < 1000000 -> forall us', delay_us us' w = w).
Proof.
  intros Hsmall.
  assert (Hz : forall u, 0 <= SystemCoreClock w / 1000000 * u < 3 ->
                         delay_cycles (SystemCoreClock w) u = 0).
  { intros u Hu. unfold delay_cycles. rewrite Z.mod_small by lia.
    apply Z.div_small. lia. }
  split; [|split].
  - unfold delay_us. by rewrite Hz.
  - intros h channel Hus Hc.
    rewrite MUX_SelectChannel_eq by (unfold MUX_CHANNELS; lia). simpl.
    unfold select_events.
    destruct (Z.leb_spec MUX_CHANNELS channel); [unfold MUX_CHANNELS in *; lia|].
    rewrite Hus, Hz by done. by simpl.
  - intros Hclk us'. unfold delay_us. rewrite Hz; [done|].
    rewrite Z.div_small by lia. lia.
Qed.

(** ** Selections compose *)

Lemma select_gpio_overwrite c a b g :
  b < MUX_CHANNELS -> select_gpio c b (select_gpio c a g) = select_gpio c b g.
Proof.
  intros Hb. unfold select_gpio.
  destruct (Z.leb_spec MUX_CHANNELS b); [lia|].
  destruct (MUX_CHANNELS <=? a); [done|].
  apply map_eq. intros l. rewrite !lookup_insert.
  repeat case_decide; done.
Qed.

(** X3. The last selection wins: selecting any channel [a] and then a channel
    [b < 16] leaves the handle and every line exactly as selecting [b] alone,
    and the trace holds the events of both selections, settle loop included.
    With [a = b] this is idempotence of a selection, the delay being paid
    both times. *)
Theorem MUX_SelectChannel_last_wins h a b w :
  b < 16 ->
  let first := MUX_SelectChannel h a w in
  let second := MUX_SelectChannel first.1 b first.2 in
  second.1 = (MUX_SelectChannel h b w).1 /\
  gpio second.2 = gpio (MUX_SelectChannel h b w).2 /\
  trace second.2 = trace w ++ select_events h a w ++ select_events h b w /\
  (a = b -> second.1 = first.1 /\ gpio second.2 = gpio first.2).
Proof.
  intros Hb. cbv zeta. rewrite !MUX_SelectChannel_gen. simpl.
  unfold MUX_CHANNELS in *.
  destruct (Z.leb_spec 16 b); [lia|].
  rewrite select_gpio_overwrite by done.
  split; [done|]. split; [done|]. split.
  - rewrite <- app_assoc. unfold select_events. simpl.
    unfold MUX_CHANNELS. by destruct (Z.leb_spec 16 b); [lia|].
  - intros ->. by destruct (Z.leb_spec 16 b); [lia|].
Qed.

(** ** The single-channel read *)

(** X4. Whatever the channel, [MUX_ReadChannel] starts exactly one ADC
    conversion, and only after the enable write (if any), the select writes
    and the settle loop; it never touches the sample memory; the value it
    returns is the low 16 bits of the ADC data register, hence within
    0..65535, and it is the converted value itself whenever that fits in 16
    bits. *)
Theorem MUX_ReadChannel_one_conversion h channel w :
  let r := MUX_ReadChannel h channel w in
  let lines := select_gpio (config h) channel (enable_gpio h (gpio w)) in
  let converted := adc_backend w (hadc (config h)) lines (adc_conversions w) in
  trace r.2 = trace w ++ enable_events h ++ select_events h channel w ++
              [EvAdcStart (hadc (config h)); EvAdcPoll (hadc (config h)) HAL_MAX_DELAY;
               EvAdcGetValue (hadc (config h)); EvAdcStop (hadc (config h))] /\
  adc_conversions r.2 = S (adc_conversions w) /\
  adc_dr r.2 = converted /\
  gpio r.2 = lines /\
  ram r.2 = ram w /\
  r.1.1 = (converted mod 2 ^ 32) mod 2 ^ 16 /\
  0 <= r.1.1 < 2 ^ 16 /\
  (0 <= converted < 2 ^ 16 -> r.1.1 = converted).
Proof.
  cbv zeta. rewrite MUX_ReadChannel_eq. simpl. unfold sample_at.
  do 6 (split; [done|]). split.
  - apply Z.mod_pos_bound. lia.
  - intros Hc.
    rewrite (Z.mod_small _ (2 ^ 32)) by lia. by rewrite Z.mod_small by lia.
Qed.

(** ** Enable and disable undo each other *)

(** X10. On a disabled handle whose enable line stands at set,
    [MUX_Enable] followed by [MUX_Disable] gives back the handle and the
    level of every line exactly as they were; likewise [MUX_Disable] followed
    by [MUX_Enable] on an enabled handle whose enable line stands at reset. *)
Theorem enable_disable_round_trip h w :
  gpio w !! en_line (config h) = Some (en_level (is_enabled h)) ->
  (is_enabled h = false ->
   (MUX_Disable (MUX_Enable h w).1 (MUX_Enable h w).2).1 = h /\
   gpio (MUX_Disable (MUX_Enable h w).1 (MUX_Enable h w).2).2 = gpio w) /\
  (is_enabled h = true ->
   (MUX_Enable (MUX_Disable h w).1 (MUX_Disable h w).2).1 = h /\
   gpio (MUX_Enable (MUX_Disable h w).1 (MUX_Disable h w).2).2 = gpio w).
Proof.
  intros Hg. split; intros He; rewrite He in Hg; simpl in *.
  - split; [destruct h; simpl in *; by subst|].
    rewrite insert_insert_eq. by apply insert_id.
  - split; [destruct h; simpl in *; by subst|].
    rewrite insert_insert_eq. by apply insert_id.
Qed.

(** ** The sweep in closed form *)

Section SweepShape.

Lemma enabled_start_eq h w :
  enabled_start h w =
  (mkHandle (config h) (current_channel h) true (settling_time_us h),
   mkWorld (enable_gpio h (gpio w)) (trace w ++ enable_events h)
           (adc_conversions w) (adc_dr w) (ram w) (SystemCoreClock w) (adc_backend w)).
Proof.
  unfold enabled_start, enable_gpio, enable_events.
  destruct (is_enabled h) eqn:He; simpl; [|done].
  rewrite app_nil_r. destruct h, w; simpl in *. by subst.
Qed.

Lemma MUX_ReadAllChannels_eq h data n w :
  0 <= n <= 16 -> data <> NULL ->
  MUX_ReadAllChannels h data n w =
  (HAL_OK,
   (read_each (seqZ 0 n) (enabled_start h w).1 (enabled_start h w).2).1.2,
   with_ram (store_samples data
               (read_each (seqZ 0 n) (enabled_start h w).1 (enabled_start h w).2).1.1
               (ram w))
            (read_each (seqZ 0 n) (enabled_start h w).1 (enabled_start h w).2).2).
Proof.
  intros Hn Hd. unfold MUX_ReadAllChannels, MUX_CHANNELS.
  destruct (Z.eqb_spec data NULL); [done|].
  destruct (Z.ltb_spec 16 n); [lia|]. simpl orb. cbv iota.
  fold (enabled_start h w).
  assert (Hram : ram (enabled_start h w).2 = ram w) by by rewrite enabled_start_eq.
  destruct (enabled_start h w) as [h1 w1]. simpl in *.
  pose proof (read_loop_read_each (Z.to_nat n) 0 data h1 w1 (ram w1)) as Hl.
  rewrite with_ram_id in Hl. rewrite Hl by lia.
  by rewrite Z2Nat.id, Z.add_0_r, Hram by lia.
Qed.

Lemma select_events_in_range h ch w :
  ch < MUX_CHANNELS ->
  select_events h ch w =
  select_writes (config h) ch ++
  repeat EvNop (Z.to_nat (delay_cycles (SystemCoreClock w) (settling_time_us h))).
Proof.
  intros Hch. unfold select_events. by destruct (Z.leb_spec MUX_CHANNELS ch); [lia|].
Qed.

Lemma sweep_events_cons c d ch rest :
  sweep_events c d (ch :: rest) =
  (select_writes c ch ++ repeat EvNop d ++ adc_events (hadc c)) ++ sweep_events c d rest.
Proof. done. Qed.

(** On an enabled handle, a sweep over channels below 16: what it leaves in
    the handle, in the trace and in the ADC, and the samples it returns. *)
Lemma read_each_shape chs : forall h w,
  Forall (fun ch => ch < MUX_CHANNELS) chs -> is_enabled h = true ->
  config (read_each chs h w).1.2 = config h /\
  settling_time_us (read_each chs h w).1.2 = settling_time_us h /\
  SystemCoreClock (read_each chs h w).2 = SystemCoreClock w /\
  adc_backend (read_each chs h w).2 = adc_backend w /\
  adc_conversions (read_each chs h w).2 = (adc_conversions w + length chs)%nat /\
  trace (read_each chs h w).2 =
    trace w ++ sweep_events (config h)
                 (Z.to_nat (delay_cycles (SystemCoreClock w) (settling_time_us h))) chs /\
  (read_each chs h w).1.1 =
    imap (fun k ch => sample_number w (hadc (config h))
                        (select_gpio (config h) ch (gpio w))
                        (adc_conversions w + k)) chs.
Proof.
  induction chs as [|ch rest IH]; intros h w HF He.
  - simpl. rewrite app_nil_r, Nat.add_0_r. by repeat split.
  - apply Forall_cons in HF as [Hch HF].
    rewrite read_each_cons.
    specialize (IH (MUX_ReadChannel h ch w).1.2 (MUX_ReadChannel h ch w).2 HF).
    rewrite MUX_ReadChannel_eq in *.
    cbn [fst snd config settling_time_us is_enabled SystemCoreClock adc_backend
         adc_conversions trace gpio length] in *.
    destruct (IH eq_refl) as (Hc & Hs & Hk & Hb & Hn & Ht & Hv).
    assert (Hen : enable_gpio h (gpio w) = gpio w)
      by (unfold enable_gpio; by rewrite He).
    assert (Hev : enable_events h = []) by (unfold enable_events; by rewrite He).
    do 4 (split; [done|]). split; [lia|]. split.
    + rewrite Ht, Hev, select_events_in_range by done.
      rewrite sweep_events_cons, app_nil_l. by rewrite <- !app_assoc.
    + rewrite Hv, Hen. simpl. unfold sample_at, sample_number.
      rewrite Nat.add_0_r. f_equal.
      apply imap_ext. intros k ch' Hk'. simpl.
      apply (Forall_lookup_1 _ _ _ _ HF) in Hk'.
      rewrite select_gpio_overwrite by done.
      by replace (adc_conversions w + S k)%nat with (S (adc_conversions w + k)) by lia.
Qed.

End SweepShape.

(** X5. An empty sweep still enables: [MUX_ReadAllChannels] with a non-null
    buffer and count 0 returns [HAL_OK], reads nothing and writes no cell, but
    a disabled multiplexer comes out enabled, with one reset write to the
    enable line; on an enabled handle the call changes nothing at all. *)
Theorem MUX_ReadAllChannels_empty h data w :
  data <> NULL ->
  let r := MUX_ReadAllChannels h data 0 w in
  r.1.1 = HAL_OK /\
  r.1.2 = mkHandle (config h) (current_channel h) true (settling_time_us h) /\
  trace r.2 = trace w ++
    (if is_enabled h then []
     else [EvGpioWrite (en_port (config h)) (en_pin (config h)) GPIO_PIN_RESET]) /\
  ram r.2 = ram w /\ adc_conversions r.2 = adc_conversions w /\
  (is_enabled h = true -> r.1.2 = h /\ r.2 = w).
Proof.
  intros Hd. cbv zeta. unfold MUX_ReadAllChannels, MUX_CHANNELS.
  destruct (Z.eqb_spec data NULL); [done|]. simpl.
  destruct (is_enabled h) eqn:He; simpl.
  - rewrite app_nil_r. repeat split; try done. destruct h; simpl in *; by subst.
  - by repeat split.
Qed.

(** X6. For count <= 16 and a non-null buffer the trace of
    [MUX_ReadAllChannels] is, after the reset write to the enable line if the
    multiplexer was disabled: for each channel 0, 1, ..., count-1 in turn, the
    four select writes of that channel, the full settle loop, and one ADC
    start, poll, get-value and stop.  Channels are never interleaved, every
    channel pays its own settle delay, and the call starts exactly count
    conversions. *)
Theorem MUX_ReadAllChannels_trace h data num_channels w :
  0 <= num_channels <= 16 -> data <> NULL ->
  let r := MUX_ReadAllChannels h data num_channels w in
  let nops := Z.to_nat (delay_cycles (SystemCoreClock w) (settling_time_us h)) in
  trace r.2 = trace w ++
    (if is_enabled h then []
     else [EvGpioWrite (en_port (config h)) (en_pin (config h)) GPIO_PIN_RESET]) ++
    flat_map (fun ch => select_writes (config h) ch ++ repeat EvNop nops ++
                        [EvAdcStart (hadc (config h));
                         EvAdcPoll (hadc (config h)) HAL_MAX_DELAY;
                         EvAdcGetValue (hadc (config h));
                         EvAdcStop (hadc (config h))])
             (seqZ 0 num_channels) /\
  adc_conversions r.2 = (adc_conversions w + Z.to_nat num_channels)%nat /\
  config r.1.2 = config h /\ settling_time_us r.1.2 = settling_time_us h.
Proof.
  intros Hn Hd. cbv zeta. rewrite MUX_ReadAllChannels_eq by done.
  rewrite enabled_start_eq. cbn [fst snd].
  assert (HF : Forall (fun ch => ch < MUX_CHANNELS) (seqZ 0 num_channels))
    by (apply Forall_seqZ; unfold MUX_CHANNELS; lia).
  match goal with
  | |- context [read_each ?l ?h1 ?w1] =>
      destruct (read_each_shape l h1 w1 HF eq_refl) as (Hc & Hs & _ & _ & Hk & Ht & _)
  end.
  cbn [fst snd with_ram config settling_time_us is_enabled SystemCoreClock adc_backend
           adc_conversions trace gpio] in *.
  rewrite Ht, Hk, Hc, Hs, length_seqZ, <- app_assoc.
  by repeat split.
Qed.

(** X7. For count <= 16 and a non-null buffer, [buffer[i]] after
    [MUX_ReadAllChannels] is the low 16 bits of the conversion number
    [adc_conversions + i], taken with the select lines written for channel [i]
    over the line levels at the start of the sweep (enable line driven to
    reset if the multiplexer was disabled): what earlier channels of the sweep
    wrote to the lines has no influence on a sample. *)
Theorem MUX_ReadAllChannels_samples h data num_channels w i :
  0 <= num_channels <= 16 -> data <> NULL -> 0 <= i < num_channels ->
  ram (MUX_ReadAllChannels h data num_channels w).2 !! (data + i) =
  Some ((adc_backend w (hadc (config h))
           (select_gpio (config h) i (enable_gpio h (gpio w)))
           (adc_conversions w + Z.to_nat i) mod 2 ^ 32) mod 2 ^ 16).
Proof.
  intros Hn Hd Hi. rewrite MUX_ReadAllChannels_eq by done.
  rewrite enabled_start_eq. cbn [fst snd].
  assert (HF : Forall (fun ch => ch < MUX_CHANNELS) (seqZ 0 num_channels))
    by (apply Forall_seqZ; unfold MUX_CHANNELS; lia).
  match goal with
  | |- context [read_each ?l ?h1 ?w1] =>
      destruct (read_each_shape l h1 w1 HF eq_refl) as (_ & _ & _ & _ & _ & _ & Hv)
  end.
  cbn [fst snd with_ram ram config settling_time_us is_enabled SystemCoreClock
           adc_backend adc_conversions trace gpio] in *.
  rewrite Hv, store_samples_lookup, length_imap, length_seqZ.
  rewrite decide_True by lia.
  replace (data + i - data) with i by lia.
  rewrite list_lookup_imap, lookup_seqZ_lt by lia. simpl.
  unfold sample_number. by rewrite Z2Nat.id by lia.
Qed.

(** ** What a call leaves alone *)

Section Frame.

Lemma read_loop_frame k i data h w :
  0 <= i < 2 ^ 8 ->
  config (read_loop k i data h w).1 = config h /\
  settling_time_us (read_loop k i data h w).1 = settling_time_us h /\
  SystemCoreClock (read_loop k i data h w).2 = SystemCoreClock w /\
  adc_backend (read_loop k i data h w).2 = adc_backend w.
Proof.
  intros Hi.
  apply (read_loop_ind
           (fun h' w' => config h' = config h /\
                         settling_time_us h' = settling_time_us h /\
                         SystemCoreClock w' = SystemCoreClock w /\
                         adc_backend w' = adc_backend w) data); [|done..].
  intros j h' w' _ (Hc & Hs & Hk & Hb). by rewrite MUX_ReadChannel_eq.
Qed.

End Frame.

(** X8. What each call of the API leaves alone.  No call changes
    [SystemCoreClock] or the ADC backend; only [MUX_ReadAllChannels] writes
    sample memory; only the two read calls start a conversion or change the
    ADC data register; only [MUX_Init] changes the stored configuration;
    only [MUX_Init] and [MUX_SetSettlingTime] change [settling_time_us]. *)
Theorem run_op_frame op h w :
  let s' := run_op op (h, w) in
  SystemCoreClock s'.2 = SystemCoreClock w /\
  adc_backend s'.2 = adc_backend w /\
  (is_sweep op = false -> ram s'.2 = ram w) /\
  (is_read op = false ->
   adc_conversions s'.2 = adc_conversions w /\ adc_dr s'.2 = adc_dr w) /\
  (is_init op = false -> config s'.1 = config h) /\
  (sets_time op = false -> settling_time_us s'.1 = settling_time_us h).
Proof.
  cbv zeta.
  destruct op as [[c|]| t | | | ch | ch | data n | ]; simpl;
    try (by repeat split).
  - rewrite MUX_SelectChannel_gen. by repeat split.
  - rewrite MUX_ReadChannel_eq. by repeat split.
  - unfold MUX_ReadAllChannels.
    destruct ((data =? NULL) || (MUX_CHANNELS <? n)); [by repeat split|].
    fold (enabled_start h w).
    pose proof (enabled_start_eq h w) as E.
    destruct (enabled_start h w) as [h1 w1].
    pose proof (read_loop_frame (Z.to_nat n) 0 data h1 w1 ltac:(lia)) as F.
    destruct (read_loop (Z.to_nat n) 0 data h1 w1) as [h2 w2].
    injection E as -> ->. simpl in *.
    destruct F as (Hc & Hs & Hk & Hb). by repeat split.
Qed.

(** ** The select lines follow [current_channel] *)

Section Encode.

Lemma lines_distinct_parts c :
  lines_distinct c -> NoDup (select_lines c) /\ en_line c ∉ select_lines c.
Proof.
  unfold lines_distinct. rewrite NoDup_app.
  intros (Hnd & Hdis & _). split; [done|].
  intros Hin. apply (Hdis _ Hin). apply list_elem_of_here.
Qed.

Lemma select_lines_ne c :
  NoDup (select_lines c) ->
  s0_line c <> s1_line c /\ s0_line c <> s2_line c /\ s0_line c <> s3_line c /\
  s1_line c <> s2_line c /\ s1_line c <> s3_line c /\ s2_line c <> s3_line c.
Proof.
  unfold select_lines. intros Hnd.
  apply NoDup_cons in Hnd as [H0 Hnd]. apply NoDup_cons in Hnd as [H1 Hnd].
  apply NoDup_cons in Hnd as [H2 _].
  repeat rewrite not_elem_of_cons in H0.
  repeat rewrite not_elem_of_cons in H1.
  repeat rewrite not_elem_of_cons in H2.
  destruct H0 as (? & ? & ? & _), H1 as (? & ? & _), H2 as (? & _).
  by repeat split.
Qed.

Lemma encodes_select c channel g :
  NoDup (select_lines c) -> channel < MUX_CHANNELS ->
  encodes c channel (select_gpio c channel g).
Proof.
  intros (? & ? & ? & ? & ? & ?)%select_lines_ne Hch.
  unfold select_gpio, encodes. destruct (Z.leb_spec MUX_CHANNELS channel); [lia|].
  repeat split.
  - rewrite !lookup_insert_ne by done. apply lookup_insert_eq.
  - rewrite !lookup_insert_ne by done. apply lookup_insert_eq.
  - rewrite lookup_insert_ne by done. apply lookup_insert_eq.
  - apply lookup_insert_eq.
Qed.

Lemma encodes_other_line c channel g l st :
  l ∉ select_lines c -> encodes c channel g -> encodes c channel (<[l := st]> g).
Proof.
  intros (? & ? & ? & ?)%not_select_line (E0 & E1 & E2 & E3).
  unfold encodes. by rewrite !lookup_insert_ne.
Qed.

Lemma encodes_enable h g :
  en_line (config h) ∉ select_lines (config h) ->
  encodes (config h) (current_channel h) g ->
  encodes (config h) (current_channel h) (enable_gpio h g).
Proof.
  intros Hen He. unfold enable_gpio. destruct (is_enabled h); [done|].
  by apply encodes_other_line.
Qed.

Lemma encodes_after_select c current channel g :
  NoDup (select_lines c) -> encodes c current g ->
  encodes c (if MUX_CHANNELS <=? channel then current else channel)
          (select_gpio c channel g).
Proof.
  intros Hnd He. destruct (Z.leb_spec MUX_CHANNELS channel) as [Hge|Hlt].
  - unfold select_gpio. by destruct (Z.leb_spec MUX_CHANNELS channel); [|lia].
  - by apply encodes_select.
Qed.

Lemma encodes_init c g :
  lines_distinct c ->
  encodes c 0 (<[en_line c := GPIO_PIN_SET]>
                 (<[s3_line c := GPIO_PIN_RESET]>
                   (<[s2_line c := GPIO_PIN_RESET]>
                     (<[s1_line c := GPIO_PIN_RESET]>
                       (<[s0_line c := GPIO_PIN_RESET]> g))))).
Proof.
  intros [Hnd Hen]%lines_distinct_parts.
  apply encodes_other_line; [done|].
  exact (encodes_select c 0 g Hnd ltac:(unfold MUX_CHANNELS; lia)).
Qed.

Lemma encode_inv_read h channel w :
  encode_inv h w ->
  encode_inv (MUX_ReadChannel h channel w).1.2 (MUX_ReadChannel h channel w).2.
Proof.
  intros [Hd He]. rewrite MUX_ReadChannel_eq. split; [done|].
  destruct (lines_distinct_parts _ Hd) as [Hnd Hen].
  unfold lines_encode in *. simpl in *.
  apply encodes_after_select; [done|]. by apply encodes_enable.
Qed.

Lemma encode_inv_step op h w :
  op_ok lines_distinct op -> encode_inv h w ->
  encode_inv (run_op op (h, w)).1 (run_op op (h, w)).2.
Proof.
  intros Hop [Hd He]. destruct (lines_distinct_parts _ Hd) as [Hnd Hen].
  unfold encode_inv, lines_encode in *.
  destruct op as [[c|]| t | | | ch | ch | data n | ]; simpl in Hop, He |- *;
    try done.
  - split; [done|]. by apply encodes_init.
  - split; [done|]. by apply encodes_other_line.
  - split; [done|]. by apply encodes_other_line.
  - rewrite MUX_SelectChannel_gen. simpl. split; [done|].
    by apply encodes_after_select.
  - pose proof (encode_inv_read h ch w (conj Hd He)) as H.
    by destruct (MUX_ReadChannel h ch w) as [[v h'] w'].
  - unfold MUX_ReadAllChannels.
    destruct ((data =? NULL) || (MUX_CHANNELS <? n)); [done|].
    fold (enabled_start h w).
    assert (H1 : encode_inv (enabled_start h w).1 (enabled_start h w).2).
    { rewrite enabled_start_eq. split; [done|].
      unfold lines_encode. simpl. by apply encodes_enable. }
    destruct (enabled_start h w) as [h1 w1].
    pose proof (read_loop_ind encode_inv data) as Hl.
    specialize (Hl ltac:(intros i h' w' _ Hinv; exact (encode_inv_read h' i w' Hinv))
                   (Z.to_nat n) 0 h1 w1 ltac:(lia) H1).
    by destruct (read_loop (Z.to_nat n) 0 data h1 w1).
Qed.

End Encode.

(** X9. When every configuration wires the five control lines to five
    different pins, then in every state reachable from a successful
    [MUX_Init] by driver calls the four select lines stand at the bits of
    [current_channel] (S0 at bit 0 up to S3 at bit 3): the levels decode to
    [current_channel], which is the channel the multiplexer routes. *)
Theorem select_lines_follow_current_channel s :
  reachable lines_distinct s ->
  lines_encode s /\
  exists l0 l1 l2 l3,
    gpio s.2 !! s0_line (config s.1) = Some l0 /\
    gpio s.2 !! s1_line (config s.1) = Some l1 /\
    gpio s.2 !! s2_line (config s.1) = Some l2 /\
    gpio s.2 !! s3_line (config s.1) = Some l3 /\
    select_code l0 l1 l2 l3 = current_channel s.1.
Proof.
  intros Hr.
  assert (Hinv : encode_inv s.1 s.2 /\ 0 <= current_channel s.1 < 16).
  { induction Hr as [h0 c w0 h w Hc Hinit | op [h w] _ [IH Hrange] Hop].
    - simpl in Hinit. injection Hinit as <- <-. split; [|simpl; lia].
      split; [done|]. unfold lines_encode. simpl. by apply encodes_init.
    - split; [by apply encode_inv_step|].
      clear IH. simpl in Hrange.
      destruct op as [[c|]| t | | | ch | ch | data n | ]; simpl in *; try done.
      + rewrite MUX_SelectChannel_gen. simpl. unfold MUX_CHANNELS.
        destruct (Z.leb_spec 16 ch); lia.
      + rewrite MUX_ReadChannel_eq. simpl. unfold MUX_CHANNELS.
        destruct (Z.leb_spec 16 ch); lia.
      + unfold MUX_ReadAllChannels.
        destruct ((data =? NULL) || (MUX_CHANNELS <? n)); [done|].
        fold (enabled_start h w). pose proof (enabled_start_eq h w) as E.
        destruct (enabled_start h w) as [h1 w1]. injection E as -> ->.
        pose proof (read_loop_ind (fun h _ => 0 <= current_channel h < 16) data) as Hl.
        match goal with
        | |- context [read_loop ?k ?i ?d ?h1 ?w1] =>
            specialize (Hl ltac:(intros i' h' w' Hi Hh'; rewrite MUX_ReadChannel_eq;
                                 simpl in *; unfold MUX_CHANNELS;
                                 destruct (Z.leb_spec 16 i'); lia)
                           k i h1 w1 ltac:(lia) Hrange);
            by destruct (read_loop k i d h1 w1)
        end. }
  destruct Hinv as [[_ He] Hrange]. split; [done|].
  destruct s as [h w]. unfold lines_encode, encodes in He. simpl in *.
  destruct He as (H0 & H1 & H2 & H3).
  eexists _, _, _, _. do 4 (split; [eassumption|]).
  by apply select_code_bits.
Qed.

(** X11. With five separately wired control lines and the enable line
    standing where [is_enabled] says, [MUX_ReadChannel] of a channel in 0..15
    converts with the select lines at the bits of that channel and the enable
    line at reset (active): the sample it returns is the one the ADC takes of
    the requested channel, and [current_channel] is that channel. *)
Theorem MUX_ReadChannel_samples_requested_channel h channel w :
  lines_distinct (config h) ->
  gpio w !! en_line (config h) = Some (en_level (is_enabled h)) ->
  0 <= channel < 16 ->
  let r := MUX_ReadChannel h channel w in
  encodes (config h) channel (gpio r.2) /\
  gpio r.2 !! en_line (config h) = Some GPIO_PIN_RESET /\
  (forall l, l ∉ select_lines (config h) -> l <> en_line (config h) ->
             gpio r.2 !! l = gpio w !! l) /\
  r.1.1 = (adc_backend w (hadc (config h)) (gpio r.2) (adc_conversions w)
           mod 2 ^ 32) mod 2 ^ 16 /\
  current_channel r.1.2 = channel.
Proof.
  intros [Hnd Hen]%lines_distinct_parts Hg Hch. cbv zeta.
  rewrite MUX_ReadChannel_eq. simpl. unfold sample_at.
  split; [apply encodes_select; [done | unfold MUX_CHANNELS; lia]|].
  split; [|split; [|split]].
  - rewrite select_gpio_other by done. unfold enable_gpio.
    destruct (is_enabled h); [done | apply lookup_insert_eq].
  - intros l Hl Hne. rewrite select_gpio_other by done. unfold enable_gpio.
    destruct (is_enabled h); [done | by rewrite lookup_insert_ne].
  - done.
  - unfold MUX_CHANNELS. by destruct (Z.leb_spec 16 channel); [lia|].
Qed.

(** ** Concrete runs for the further properties *)

Lemma demo_config_distinct : lines_distinct demo_config.
Proof. apply (bool_decide_unpack _). by vm_compute. Defined.

Lemma delay_us_exact_witness :
  0 <= SystemCoreClock demo_world < 2 ^ 32 /\ 0 <= 10 < 2 ^ 16 /\
  delay_cycles (SystemCoreClock demo_world) 10 = 26.
Proof.
  assert (H1 : 0 <= SystemCoreClock demo_world < 2 ^ 32)
    by (unfold demo_world; simpl; lia).
  assert (H2 : 0 <= 10 < 2 ^ 16) by lia.
  destruct (delay_us_exact 10 demo_world H1 H2) as (H & _).
  split; [exact H1|]. split; [exact H2|]. exact H.
Defined.

Lemma delay_us_rounds_to_nothing_witness :
  0 <= SystemCoreClock slow_world / 1000000 * 10 < 3 /\
  0 <= SystemCoreClock slow_world < 1000000 /\
  delay_us 10 slow_world = slow_world /\
  delay_us 65535 slow_world = slow_world.
Proof.
  assert (H1 : 0 <= SystemCoreClock slow_world / 1000000 * 10 < 3)
    by (vm_compute; split; [discriminate | reflexivity]).
  assert (H2 : 0 <= SystemCoreClock slow_world < 1000000)
    by (unfold slow_world; simpl; lia).
  destruct (delay_us_rounds_to_nothing 10 slow_world H1) as (Ha & _ & Hb).
  split; [exact H1|]. split; [exact H2|]. split; [exact Ha|].
  exact (Hb H2 65535).
Defined.

Lemma MUX_SelectChannel_last_wins_witness :
  9 < 16 /\
  (MUX_SelectChannel (MUX_SelectChannel demo_boot.1 6 demo_boot.2).1 9
                     (MUX_SelectChannel demo_boot.1 6 demo_boot.2).2).1 =
  (MUX_SelectChannel demo_boot.1 9 demo_boot.2).1.
Proof.
  split; [lia|].
  destruct (MUX_SelectChannel_last_wins demo_boot.1 6 9 demo_boot.2 ltac:(lia))
    as (H & _).
  exact H.
Defined.

Lemma MUX_ReadChannel_one_conversion_witness :
  0 <= adc_backend demo_boot.2 (hadc (config demo_boot.1))
         (select_gpio (config demo_boot.1) 5 (enable_gpio demo_boot.1 (gpio demo_boot.2)))
         (adc_conversions demo_boot.2) < 2 ^ 16 /\
  (MUX_ReadChannel demo_boot.1 5 demo_boot.2).1.1 = 105.
Proof.
  assert (Hfit : 0 <= adc_backend demo_boot.2 (hadc (config demo_boot.1))
                        (select_gpio (config demo_boot.1) 5
                           (enable_gpio demo_boot.1 (gpio demo_boot.2)))
                        (adc_conversions demo_boot.2) < 2 ^ 16)
    by (vm_compute; split; [discriminate | reflexivity]).
  destruct (MUX_ReadChannel_one_conversion demo_boot.1 5 demo_boot.2)
    as (_ & _ & _ & _ & _ & _ & _ & H).
  split; [exact Hfit|]. rewrite (H Hfit). reflexivity.
Defined.

Lemma MUX_ReadAllChannels_empty_witness :
  1000 <> NULL /\
  is_enabled (MUX_ReadAllChannels demo_boot.1 1000 0 demo_boot.2).1.2 = true /\
  ram (MUX_ReadAllChannels demo_boot.1 1000 0 demo_boot.2).2 = ram demo_boot.2.
Proof.
  assert (Hd : 1000 <> NULL) by discriminate.
  destruct (MUX_ReadAllChannels_empty demo_boot.1 1000 demo_boot.2 Hd)
    as (_ & Hh & _ & Hr & _).
  split; [exact Hd|]. split; [by rewrite Hh | exact Hr].
Defined.

Lemma MUX_ReadAllChannels_trace_witness :
  0 <= 14 <= 16 /\ 1000 <> NULL /\
  adc_conversions (MUX_ReadAllChannels demo_boot.1 1000 14 demo_boot.2).2 = 14%nat.
Proof.
  assert (Hn : 0 <= 14 <= 16) by lia.
  assert (Hd : 1000 <> NULL) by discriminate.
  destruct (MUX_ReadAllChannels_trace demo_boot.1 1000 14 demo_boot.2 Hn Hd)
    as (_ & H & _).
  split; [exact Hn|]. split; [exact Hd|]. exact H.
Defined.

Lemma MUX_ReadAllChannels_samples_witness :
  0 <= 14 <= 16 /\ 1000 <> NULL /\ 0 <= 9 < 14 /\
  ram (MUX_ReadAllChannels demo_boot.1 1000 14 demo_boot.2).2 !! (1000 + 9) = Some 109.
Proof.
  assert (Hn : 0 <= 14 <= 16) by lia.
  assert (Hd : 1000 <> NULL) by discriminate.
  assert (Hi : 0 <= 9 < 14) by lia.
  split; [exact Hn|]. split; [exact Hd|]. split; [exact Hi|].
  rewrite (MUX_ReadAllChannels_samples demo_boot.1 1000 14 demo_boot.2 9 Hn Hd Hi).
  reflexivity.
Defined.

Lemma run_op_frame_witness :
  is_sweep (OpReadChannel 3) = false /\ is_init (OpReadChannel 3) = false /\
  ram (run_op (OpReadChannel 3) demo_boot).2 = ram demo_boot.2 /\
  config (run_op (OpReadChannel 3) demo_boot).1 = config demo_boot.1.
Proof.
  destruct (run_op_frame (OpReadChannel 3) demo_boot.1 demo_boot.2)
    as (_ & _ & Hram & _ & Hcfg & _).
  split; [reflexivity|]. split; [reflexivity|].
  split; [exact (Hram eq_refl) | exact (Hcfg eq_refl)].
Defined.

Lemma select_lines_follow_current_channel_witness :
  reachable lines_distinct demo_run /\ lines_encode demo_run.
Proof.
  split.
  - exact (demo_run_reachable lines_distinct demo_config_distinct).
  - exact (proj1 (select_lines_follow_current_channel demo_run
                    (demo_run_reachable lines_distinct demo_config_distinct))).
Defined.

Lemma enable_disable_round_trip_witness :
  gpio demo_boot.2 !! en_line (config demo_boot.1)
    = Some (en_level (is_enabled demo_boot.1)) /\
  is_enabled demo_boot.1 = false /\
  (MUX_Disable (MUX_Enable demo_boot.1 demo_boot.2).1
               (MUX_Enable demo_boot.1 demo_boot.2).2).1 = demo_boot.1 /\
  gpio (MUX_Disable (MUX_Enable demo_boot.1 demo_boot.2).1
                    (MUX_Enable demo_boot.1 demo_boot.2).2).2 = gpio demo_boot.2.
Proof.
  assert (Hg : gpio demo_boot.2 !! en_line (config demo_boot.1)
               = Some (en_level (is_enabled demo_boot.1))) by reflexivity.
  destruct (enable_disable_round_trip demo_boot.1 demo_boot.2 Hg) as [Hoff _].
  destruct (Hoff eq_refl) as [Hh Hl].
  split; [exact Hg|]. split; [reflexivity|]. split; [exact Hh | exact Hl].
Defined.

Lemma MUX_ReadChannel_samples_requested_channel_witness :
  lines_distinct (config demo_boot.1) /\
  gpio demo_boot.2 !! en_line (config demo_boot.1)
    = Some (en_level (is_enabled demo_boot.1)) /\
  0 <= 11 < 16 /\
  encodes (config demo_boot.1) 11 (gpio (MUX_ReadChannel demo_boot.1 11 demo_boot.2).2) /\
  current_channel (MUX_ReadChannel demo_boot.1 11 demo_boot.2).1.2 = 11.
Proof.
  assert (Hg : gpio demo_boot.2 !! en_line (config demo_boot.1)
               = Some (en_level (is_enabled demo_boot.1))) by reflexivity.
  assert (Hc : 0 <= 11 < 16) by lia.
  destruct (MUX_ReadChannel_samples_requested_channel demo_boot.1 11 demo_boot.2
              demo_config_distinct Hg Hc) as (He & _ & _ & _ & Hcur).
  split; [exact demo_config_distinct|]. split; [exact Hg|]. split; [exact Hc|].
  split; [exact He | exact Hcur].
Defined.
